(** * CloudOpsGenAI: repository analysis and response clean-up

    A shallow embedding of the deterministic parts of [src/main.py]
    (class [DevOpsAITool] and the manifest loop of [main]):

    - [analyze_repository]        (main.py, lines 64-150)
    - [_clean_dockerfile_response] (main.py, lines 280-292)
    - [_clean_k8s_response]        (main.py, lines 294-313)
    - the manifest splitting loop  (main.py, lines 394-411)

    Python [str] values are modelled as [string]; a character is a code
    point below 256.  The handful of [str] methods the program calls are
    written out in [PyStr] with the behaviour CPython gives them on such
    text. *)

From Stdlib Require Import List String Ascii Bool Arith ZArith Lia.
From Stdlib Require Import Numbers.DecimalString Numbers.DecimalNat.
From Stdlib Require Import Sorting.Sorted.
Import ListNotations.

Open Scope list_scope.
Open Scope string_scope.

(* ================================================================== *)
(** ** Python string methods *)
(* ================================================================== *)

Module PyStr.

(** [str.isspace] on one character: TAB..CR, FS..US, SPACE, and the two
    Latin-1 blanks NEL (133) and NBSP (160). *)
Definition is_space (c : ascii) : bool :=
  let n := nat_of_ascii c in
  (((9 <=? n) && (n <=? 13)) || ((28 <=? n) && (n <=? 32))
   || (n =? 133) || (n =? 160))%nat.

(** [s.lstrip()] *)
Fixpoint lstrip (s : string) : string :=
  match s with
  | String c s' => if is_space c then lstrip s' else s
  | EmptyString => EmptyString
  end.

(** [s.rstrip()] *)
Fixpoint rstrip (s : string) : string :=
  match s with
  | String c s' =>
      match rstrip s' with
      | EmptyString => if is_space c then EmptyString else String c EmptyString
      | r => String c r
      end
  | EmptyString => EmptyString
  end.

(** [s.strip()] *)
Definition strip (s : string) : string := rstrip (lstrip s).

(** [s.startswith(p)] *)
Definition startswith (s p : string) : bool := prefix p s.

(** [sub in s] for two strings *)
Fixpoint contains (sub s : string) : bool :=
  prefix sub s ||
  match s with
  | String _ s' => contains sub s'
  | EmptyString => false
  end.

(** [s.replace(old, new)] for a non-empty [old]: one left-to-right pass
    over non-overlapping occurrences.  [skip] counts the characters of
    the current occurrence that are still to be passed over. *)
Fixpoint replace_from (old new : string) (skip : nat) (s : string) : string :=
  match s with
  | EmptyString => EmptyString
  | String c s' =>
      match skip with
      | S k => replace_from old new k s'
      | O =>
          if prefix old s
          then new ++ replace_from old new (pred (length old)) s'
          else String c (replace_from old new 0 s')
      end
  end.

Definition replace (s old new : string) : string := replace_from old new 0 s.

(** Put a character in front of the piece being built. *)
Definition push_char (c : ascii) (pieces : list string) : list string :=
  match pieces with
  | p :: ps => String c p :: ps
  | [] => [String c EmptyString]
  end.

(** [s.split(sep)] for a non-empty [sep]; the result always has at least
    one piece, and [''.split(sep) == ['']]. *)
Fixpoint split_from (sep : string) (skip : nat) (s : string) : list string :=
  match s with
  | EmptyString => [EmptyString]
  | String c s' =>
      match skip with
      | S k => split_from sep k s'
      | O =>
          if prefix sep s
          then EmptyString :: split_from sep (pred (length sep)) s'
          else push_char c (split_from sep 0 s')
      end
  end.

Definition split (s sep : string) : list string := split_from sep 0 s.

(** [sep.join(pieces)] *)
Fixpoint join (sep : string) (pieces : list string) : string :=
  match pieces with
  | [] => EmptyString
  | [p] => p
  | p :: ps => p ++ sep ++ join sep ps
  end.

(** [str.lower] on one character: A-Z, and the Latin-1 capitals
    192..222 except the multiplication sign 215. *)
Definition lower_char (c : ascii) : ascii :=
  let n := nat_of_ascii c in
  if (((65 <=? n) && (n <=? 90))
      || ((192 <=? n) && (n <=? 222) && negb (n =? 215)))%nat
  then ascii_of_nat (n + 32) else c.

(** [s.lower()] *)
Fixpoint lower (s : string) : string :=
  match s with
  | String c s' => String (lower_char c) (lower s')
  | EmptyString => EmptyString
  end.

(** The lines a text-mode file object yields when iterated: each line
    keeps its newline terminator, a final unterminated line is yielded
    as it is. *)
Fixpoint file_lines (s : string) : list string :=
  match s with
  | EmptyString => []
  | String c s' =>
      if Ascii.eqb c "010"%char
      then String c EmptyString :: file_lines s'
      else push_char c (file_lines s')
  end.

(** [str(n)] for a non-negative integer. *)
Definition of_nat (n : nat) : string := NilEmpty.string_of_uint (Nat.to_uint n).

(** [x in xs] for a list of strings. *)
Definition mem (x : string) (xs : list string) : bool :=
  existsb (String.eqb x) xs.

End PyStr.

(** The newline character as a one-character string. *)
Definition nl : string := String "010"%char EmptyString.

(* ================================================================== *)
(** ** Python dictionaries with string keys *)
(* ================================================================== *)

(** A [dict] keeps its keys in insertion order; assigning to a key that
    is already there replaces the value in place. *)
Module PyDict.

Definition dict (V : Type) : Type := list (string * V).

Fixpoint get {V} (d : dict V) (k : string) : option V :=
  match d with
  | [] => None
  | (k', v) :: d' => if String.eqb k k' then Some v else get d' k
  end.

(** [d.get(k, default)] *)
Definition get_default {V} (d : dict V) (k : string) (default : V) : V :=
  match get d k with Some v => v | None => default end.

(** [d[k] = v] *)
Fixpoint set {V} (d : dict V) (k : string) (v : V) : dict V :=
  match d with
  | [] => [(k, v)]
  | (k', v') :: d' =>
      if String.eqb k k' then (k, v) :: d' else (k', v') :: set d' k v
  end.

(** [list(d.keys())] *)
Definition keys {V} (d : dict V) : list string := map fst d.

End PyDict.

(* ================================================================== *)
(** ** The repository on disk *)
(* ================================================================== *)

(** What [json.load] returns. *)
#[warnings="-register-all"]
Inductive json : Type :=
| JNull
| JBool (b : bool)
| JNumber (literal : string)
| JString (s : string)
| JArray (items : list json)
| JObject (members : PyDict.dict json).

(** Outcome of a block that may raise an [Exception]. *)
Inductive outcome (A : Type) : Type :=
| Raised
| Returned (a : A).
Arguments Raised {A}.
Arguments Returned {A} a.

(** The part of the file system [analyze_repository] looks at.
    - [path_exists]: [repo_path.exists()];
    - [has_file f]: [(repo_path / f).exists()];
    - [package_json]: what [open] followed by [json.load] does on
      [package.json];
    - [requirements_txt]: what opening and reading [requirements.txt]
      in text mode does; the text is the decoded one, line ends already
      translated to the newline character. *)
Record repository : Type := {
  path_exists : bool;
  has_file : string -> bool;
  package_json : outcome json;
  requirements_txt : outcome string
}.

(* ================================================================== *)
(** ** analyze_repository *)
(* ================================================================== *)

(** [analysis['dependencies']['node']] *)
Record node_summary : Type := {
  node_name : json;
  node_main : json;
  node_scripts : json;
  node_dependencies : list string
}.

(** [analysis['dependencies']]: the only keys ever assigned are ['node']
    and ['python']; [None] stands for an absent key. *)
Record dependency_map : Type := {
  dep_node : option node_summary;
  dep_python : option (list string)
}.

Record analysis : Type := {
  languages : list string;
  frameworks : list string;
  package_managers : PyDict.dict bool;
  entry_points : list string;
  dependencies : dependency_map;
  structure : PyDict.dict bool;
  is_web_app : bool;
  default_port : Z
}.

(** The two [print("Warning: ...")] lines. *)
Inductive warning : Type :=
| WarnPackageJson
| WarnRequirements.

Inductive error : Type :=
| FileNotFoundError.

Inductive result (A : Type) : Type :=
| Raise (e : error)
| Return (a : A).
Arguments Raise {A} e.
Arguments Return {A} a.

Definition initial_analysis : analysis :=
  {| languages := [];
     frameworks := [];
     package_managers := [];
     entry_points := [];
     dependencies := {| dep_node := None; dep_python := None |};
     structure := [];
     is_web_app := false;
     default_port := 3000 |}.

Definition package_files : PyDict.dict string :=
  [ ("package.json", "node");
    ("requirements.txt", "python");
    ("Pipfile", "python");
    ("setup.py", "python");
    ("pom.xml", "java");
    ("build.gradle", "java");
    ("Cargo.toml", "rust");
    ("go.mod", "go");
    ("composer.json", "php") ].

Definition node_web_frameworks : list string :=
  ["express"; "react"; "vue"; "angular"; "next"; "nuxt"; "fastify"; "koa"].

Definition python_web_frameworks : list string :=
  ["flask"; "django"; "fastapi"; "tornado"; "pyramid"; "bottle"].

Definition common_files : list string :=
  [ "Dockerfile"; "docker-compose.yml"; ".dockerignore";
    "README.md"; "LICENSE"; ".gitignore";
    "main.py"; "app.py"; "server.js"; "index.js" ].

Definition entry_point_names : list string :=
  ["main.py"; "app.py"; "server.js"; "index.js"].

(** Field updates of the [analysis] dictionary. *)
Definition append_language (a : analysis) (lang : string) : analysis :=
  {| languages := (languages a ++ [lang])%list;
     frameworks := frameworks a;
     package_managers := package_managers a;
     entry_points := entry_points a;
     dependencies := dependencies a;
     structure := structure a;
     is_web_app := is_web_app a;
     default_port := default_port a |}.

Definition set_package_manager (a : analysis) (file_name : string) : analysis :=
  {| languages := languages a;
     frameworks := frameworks a;
     package_managers := PyDict.set (package_managers a) file_name true;
     entry_points := entry_points a;
     dependencies := dependencies a;
     structure := structure a;
     is_web_app := is_web_app a;
     default_port := default_port a |}.

Definition set_dependencies (a : analysis) (d : dependency_map) : analysis :=
  {| languages := languages a;
     frameworks := frameworks a;
     package_managers := package_managers a;
     entry_points := entry_points a;
     dependencies := d;
     structure := structure a;
     is_web_app := is_web_app a;
     default_port := default_port a |}.

Definition set_web_app (a : analysis) (port : Z) : analysis :=
  {| languages := languages a;
     frameworks := frameworks a;
     package_managers := package_managers a;
     entry_points := entry_points a;
     dependencies := dependencies a;
     structure := structure a;
     is_web_app := true;
     default_port := port |}.

Definition set_structure (a : analysis) (file_name : string) : analysis :=
  {| languages := languages a;
     frameworks := frameworks a;
     package_managers := package_managers a;
     entry_points := entry_points a;
     dependencies := dependencies a;
     structure := PyDict.set (structure a) file_name true;
     is_web_app := is_web_app a;
     default_port := default_port a |}.

Definition append_entry_point (a : analysis) (file_name : string) : analysis :=
  {| languages := languages a;
     frameworks := frameworks a;
     package_managers := package_managers a;
     entry_points := (entry_points a ++ [file_name])%list;
     dependencies := dependencies a;
     structure := structure a;
     is_web_app := is_web_app a;
     default_port := default_port a |}.

(** The body of the [try] block for [package.json], up to the assignment
    of [analysis['dependencies']['node']].  [pkg_json.get] needs a
    dictionary, and so does [.keys()] on the [dependencies] member; on
    any other value Python raises [AttributeError] and nothing has been
    assigned yet. *)
Definition summarize_package (pkg_json : json) : outcome node_summary :=
  match pkg_json with
  | JObject members =>
      match PyDict.get_default members "dependencies" (JObject []) with
      | JObject deps =>
          Returned
            {| node_name := PyDict.get_default members "name" (JString "unknown");
               node_main := PyDict.get_default members "main" (JString "index.js");
               node_scripts := PyDict.get_default members "scripts" (JObject []);
               node_dependencies := PyDict.keys deps |}
      | _ => Raised
      end
  | _ => Raised
  end.

(** [any(fw in deps for fw in web_frameworks)] on the keys of [deps]. *)
Definition node_is_web (deps : list string) : bool :=
  existsb (fun fw => PyStr.mem fw deps) node_web_frameworks.

(** The whole [try] block for [package.json]: opening and parsing,
    then the summary and the web-framework test. *)
Definition parse_package_json (r : repository) (a : analysis)
  : outcome analysis :=
  match package_json r with
  | Raised => Raised
  | Returned pkg_json =>
      match summarize_package pkg_json with
      | Raised => Raised
      | Returned summary =>
          let a1 :=
            set_dependencies a
              {| dep_node := Some summary;
                 dep_python := dep_python (dependencies a) |} in
          Returned
            (if node_is_web (node_dependencies summary)
             then set_web_app a1 3000
             else a1)
      end
  end.

(** [[line.strip().split('==')[0] for line in f
      if line.strip() and not line.startswith('#')]] *)
Definition requirement_names (text : string) : list string :=
  map (fun line => hd EmptyString (PyStr.split (PyStr.strip line) "=="))
      (filter (fun line =>
                 negb (String.eqb (PyStr.strip line) EmptyString)
                 && negb (PyStr.startswith line "#"))
              (PyStr.file_lines text)).

(** [any(fw.lower() in [r.lower() for r in reqs] for fw in web_frameworks)] *)
Definition python_is_web (reqs : list string) : bool :=
  existsb (fun fw => PyStr.mem (PyStr.lower fw) (map PyStr.lower reqs))
          python_web_frameworks.

(** [8000 if 'fastapi' in [r.lower() for r in reqs] else 5000] *)
Definition python_port (reqs : list string) : Z :=
  if PyStr.mem "fastapi" (map PyStr.lower reqs) then 8000%Z else 5000%Z.

(** The whole [try] block for [requirements.txt]. *)
Definition parse_requirements (r : repository) (a : analysis)
  : outcome analysis :=
  match requirements_txt r with
  | Raised => Raised
  | Returned text =>
      let reqs := requirement_names text in
      let a1 :=
        set_dependencies a
          {| dep_node := dep_node (dependencies a);
             dep_python := Some reqs |} in
      Returned
        (if python_is_web reqs
         then set_web_app a1 (python_port reqs)
         else a1)
  end.

(** The state threaded through the function: the [analysis] dictionary
    and the warnings printed so far. *)
Definition state : Type := (analysis * list warning)%type.

(** [try: ... except Exception: print("Warning: ...")] *)
Definition try_except (body : outcome analysis) (w : warning) (st : state)
  : state :=
  match body with
  | Returned a' => (a', snd st)
  | Raised => (fst st, (snd st ++ [w])%list)
  end.

(** One iteration of [for file_name, lang in package_files.items()]. *)
Definition probe_package_file (r : repository) (st : state)
  (item : string * string) : state :=
  let '(file_name, lang) := item in
  if has_file r file_name then
    let a := set_package_manager (append_language (fst st) lang) file_name in
    let st1 : state := (a, snd st) in
    if String.eqb file_name "package.json" && has_file r file_name then
      try_except (parse_package_json r a) WarnPackageJson st1
    else if String.eqb file_name "requirements.txt" && has_file r file_name then
      try_except (parse_requirements r a) WarnRequirements st1
    else st1
  else st.

(** One iteration of [for file_name in common_files]. *)
Definition probe_common_file (r : repository) (st : state)
  (file_name : string) : state :=
  if has_file r file_name then
    let a := set_structure (fst st) file_name in
    if PyStr.mem file_name entry_point_names
    then (append_entry_point a file_name, snd st)
    else (a, snd st)
  else st.

(** The loop [for file_name, lang in package_files.items()]. *)
Definition probe_package_files (r : repository) (st : state) : state :=
  fold_left (probe_package_file r) package_files st.

(** The loop [for file_name in common_files]. *)
Definition probe_common_files (r : repository) (st : state) : state :=
  fold_left (probe_common_file r) common_files st.

Definition analyze_repository (r : repository) : result state :=
  if negb (path_exists r) then Raise FileNotFoundError
  else
    Return (probe_common_files r
              (probe_package_files r (initial_analysis, []))).

(* ================================================================== *)
(** ** _clean_dockerfile_response *)
(* ================================================================== *)

(** [response.replace('```dockerfile', '').replace('```', '')
            .replace('```docker', '')] *)
Definition strip_dockerfile_fences (response : string) : string :=
  PyStr.replace
    (PyStr.replace (PyStr.replace response "```dockerfile" "") "```" "")
    "```docker" "".

(** The test guarding [lines.append(line)], on the stripped line. *)
Definition keep_dockerfile_line (line : string) : bool :=
  negb (String.eqb line EmptyString)
  && negb (PyStr.startswith line "Here")
  && negb (PyStr.startswith line "This").

(** The [for line in response.split('\n')] loop. *)
Fixpoint dockerfile_lines (raw : list string) : list string :=
  match raw with
  | [] => []
  | line :: rest =>
      let line := PyStr.strip line in
      if keep_dockerfile_line line
      then line :: dockerfile_lines rest
      else dockerfile_lines rest
  end.

Definition _clean_dockerfile_response (response : string) : string :=
  let response := strip_dockerfile_fences response in
  PyStr.join nl (dockerfile_lines (PyStr.split response nl)).

(* ================================================================== *)
(** ** _clean_k8s_response *)
(* ================================================================== *)

(** [response.replace('```yaml', '').replace('```yml', '')
            .replace('```', '')] *)
Definition strip_k8s_fences (response : string) : string :=
  PyStr.replace
    (PyStr.replace (PyStr.replace response "```yaml" "") "```yml" "")
    "```" "".

(** The test that flips [yaml_started]. *)
Definition starts_yaml (line : string) : bool :=
  PyStr.startswith (PyStr.strip line) "apiVersion:"
  || PyStr.startswith (PyStr.strip line) "---".

(** The [for line in lines] loop, with the flag [yaml_started] as an
    argument; the result is [cleaned_lines]. *)
Fixpoint k8s_lines (yaml_started : bool) (lines : list string) : list string :=
  match lines with
  | [] => []
  | line :: rest =>
      if negb yaml_started then
        if starts_yaml line
        then line :: k8s_lines true rest
        else k8s_lines false rest
      else line :: k8s_lines true rest
  end.

Definition _clean_k8s_response (response : string) : string :=
  let response := strip_k8s_fences response in
  PyStr.join nl (k8s_lines false (PyStr.split response nl)).

(* ================================================================== *)
(** ** Splitting the manifests (main, lines 394-411) *)
(* ================================================================== *)

(** One call [save_generated_config(manifest.strip(),
    f"k8s-{manifest_type}-{i}.yaml")]. *)
Record fragment : Type := {
  content : string;
  manifest_type : string;
  ordinal : nat
}.

Definition fragment_filename (f : fragment) : string :=
  "k8s-" ++ manifest_type f ++ "-" ++ PyStr.of_nat (ordinal f) ++ ".yaml".

(** The [if / elif] chain on the unstripped manifest. *)
Definition classify_manifest (manifest : string) : string :=
  if PyStr.contains "kind: Deployment" manifest then "deployment"
  else if PyStr.contains "kind: Service" manifest then "service"
  else if PyStr.contains "kind: ConfigMap" manifest then "configmap"
  else if PyStr.contains "kind: Ingress" manifest then "ingress"
  else "unknown".

(** [manifest.strip()] is truthy. *)
Definition nonblank (manifest : string) : bool :=
  negb (String.eqb (PyStr.strip manifest) EmptyString).

(** [for i, manifest in enumerate(manifests)], started at index [i]. *)
Fixpoint save_manifests (i : nat) (manifests : list string) : list fragment :=
  match manifests with
  | [] => []
  | manifest :: rest =>
      if nonblank manifest
      then {| content := PyStr.strip manifest;
              manifest_type := classify_manifest manifest;
              ordinal := i |} :: save_manifests (S i) rest
      else save_manifests (S i) rest
  end.

Definition split_manifests (k8s_content : string) : list fragment :=
  save_manifests 0 (PyStr.split k8s_content "---").

(** [enumerate(xs)] as a list of pairs. *)
Definition enumerate {A} (xs : list A) : list (nat * A) :=
  combine (seq 0 (List.length xs)) xs.

(** The fragment saved for the pair [(i, manifest)]. *)
Definition fragment_of (item : nat * string) : fragment :=
  {| content := PyStr.strip (snd item);
     manifest_type := classify_manifest (snd item);
     ordinal := fst item |}.

(** The numbering as the specification words it: a fragment's ordinal is
    its position among the surviving (non-blank) fragments. *)
Definition surviving (manifests : list string) : list string :=
  filter nonblank manifests.

Definition spec_ordinals (k8s_content : string) : list nat :=
  seq 0 (List.length (surviving (PyStr.split k8s_content "---"))).

(* ================================================================== *)
(** ** Closed forms and example inputs used in the statements *)
(* ================================================================== *)

(** The probe-table entries whose file is at the repository root. *)
Definition present_probes (r : repository) : PyDict.dict string :=
  filter (fun item => has_file r (fst item)) package_files.

(** A dictionary that maps every listed name to [True]. *)
Definition flags (names : list string) : PyDict.dict bool :=
  map (fun name => (name, true)) names.

(** No two marker files at the root stand for the same language. *)
Definition one_file_per_language (r : repository) : Prop :=
  forall f1 f2 lang,
    In (f1, lang) package_files -> In (f2, lang) package_files ->
    has_file r f1 = true -> has_file r f2 = true -> f1 = f2.

(** What one manifest contributes on its own: its entry in
    [analysis['dependencies']], whether a web framework was seen, and
    whether its [try] block raised. *)
Record verdict (A : Type) : Type := {
  entry : option A;
  web : bool;
  raised : bool
}.
Arguments entry {A} v.
Arguments web {A} v.
Arguments raised {A} v.

Definition no_verdict {A} : verdict A :=
  {| entry := None; web := false; raised := false |}.

Definition failed_verdict {A} : verdict A :=
  {| entry := None; web := false; raised := true |}.

Definition node_verdict (r : repository) : verdict node_summary :=
  if has_file r "package.json" then
    match package_json r with
    | Raised => failed_verdict
    | Returned pkg_json =>
        match summarize_package pkg_json with
        | Raised => failed_verdict
        | Returned summary =>
            {| entry := Some summary;
               web := node_is_web (node_dependencies summary);
               raised := false |}
        end
    end
  else no_verdict.

Definition python_verdict (r : repository) : verdict (list string) :=
  if has_file r "requirements.txt" then
    match requirements_txt r with
    | Raised => failed_verdict
    | Returned text =>
        {| entry := Some (requirement_names text);
           web := python_is_web (requirement_names text);
           raised := false |}
    end
  else no_verdict.

(** The port the two manifests leave behind: the Python value when
    [requirements.txt] matched, 3000 in every other case. *)
Definition derived_port (r : repository) : Z :=
  match entry (python_verdict r) with
  | Some reqs => if web (python_verdict r) then python_port reqs else 3000%Z
  | None => 3000%Z
  end.

Definition derived_warnings (r : repository) : list warning :=
  ((if raised (node_verdict r) then [WarnPackageJson] else [])
   ++ (if raised (python_verdict r) then [WarnRequirements] else []))%list.

(** The profile in closed form. *)
Definition derived_analysis (r : repository) : analysis :=
  {| languages := map snd (present_probes r);
     frameworks := [];
     package_managers := flags (map fst (present_probes r));
     entry_points := filter (has_file r) entry_point_names;
     dependencies := {| dep_node := entry (node_verdict r);
                        dep_python := entry (python_verdict r) |};
     structure := flags (filter (has_file r) common_files);
     is_web_app := web (node_verdict r) || web (python_verdict r);
     default_port := derived_port r |}.

(** The part of a profile that comes from file presence alone. *)
Definition presence_recorded (r : repository) (a : analysis) : Prop :=
  languages a = map snd (present_probes r) /\
  package_managers a = flags (map fst (present_probes r)) /\
  structure a = flags (filter (has_file r) common_files) /\
  entry_points a = filter (has_file r) entry_point_names.

(** [requirements.txt] does not set the port: it is absent, cannot be
    read, or names no Python web framework. *)
Definition no_python_match (r : repository) : Prop :=
  has_file r "requirements.txt" = false \/
  requirements_txt r = Raised \/
  exists text, requirements_txt r = Returned text /\
               python_is_web (requirement_names text) = false.

(** [package.json] is there and its [try] block raises. *)
Definition package_json_fails (r : repository) : Prop :=
  has_file r "package.json" = true /\
  match package_json r with
  | Raised => True
  | Returned pkg_json => summarize_package pkg_json = Raised
  end.

(** [requirements.txt] is there and its [try] block raises. *)
Definition requirements_fail (r : repository) : Prop :=
  has_file r "requirements.txt" = true /\ requirements_txt r = Raised.

(** [package.json] is there, parses to an object, and its
    [dependencies] object has a key on the Node allow-list. *)
Definition names_node_framework (r : repository) : Prop :=
  has_file r "package.json" = true /\
  exists members deps fw,
    package_json r = Returned (JObject members) /\
    PyDict.get members "dependencies" = Some (JObject deps) /\
    In fw node_web_frameworks /\ In fw (PyDict.keys deps).

(** [requirements.txt] is there, reads as [text], and one of its names
    is, lower-cased, on the Python allow-list. *)
Definition names_python_framework (r : repository) (text : string) : Prop :=
  has_file r "requirements.txt" = true /\
  requirements_txt r = Returned text /\
  exists name,
    In name (requirement_names text) /\
    In (PyStr.lower name) python_web_frameworks.

(** [fastapi] is among the names, compared in lower case. *)
Definition lists_fastapi (text : string) : Prop :=
  exists name, In name (requirement_names text) /\ PyStr.lower name = "fastapi".

(** A root directory holding exactly the files in [names]. *)
Definition repo_with (names : list string) (pkg : outcome json)
  (reqs : outcome string) : repository :=
  {| path_exists := true;
     has_file := fun f => PyStr.mem f names;
     package_json := pkg;
     requirements_txt := reqs |}.

Definition missing_repo : repository :=
  {| path_exists := false;
     has_file := fun _ => false;
     package_json := Raised;
     requirements_txt := Raised |}.

Definition empty_repo : repository := repo_with [] Raised Raised.

Definition express_manifest : json :=
  JObject [("name", JString "shop");
           ("dependencies", JObject [("express", JString "^4")])].

Definition two_python_markers_repo : repository :=
  repo_with ["requirements.txt"; "Pipfile"] Raised (Returned ("requests" ++ nl)).

Definition express_repo : repository :=
  repo_with ["package.json"; "server.js"] (Returned express_manifest) Raised.

Definition fastapi_repo : repository :=
  repo_with ["requirements.txt"; "main.py"] Raised
            (Returned ("# api" ++ nl ++ "FastAPI==0.100.0" ++ nl ++ "uvicorn" ++ nl)).

Definition flask_repo : repository :=
  repo_with ["requirements.txt"] Raised (Returned ("flask==2.0" ++ nl)).

Definition express_and_flask_repo : repository :=
  repo_with ["package.json"; "requirements.txt"]
            (Returned express_manifest) (Returned ("flask==2.0" ++ nl)).

Definition broken_package_repo : repository :=
  repo_with ["package.json"; "requirements.txt"; "app.py"]
            Raised (Returned ("flask==2.0" ++ nl)).

Definition broken_requirements_repo : repository :=
  repo_with ["package.json"; "requirements.txt"; "go.mod"]
            (Returned express_manifest) Raised.

Definition spec_dockerfile_reply : string :=
  "Here is your file:" ++ nl ++ "```dockerfile" ++ nl ++ "FROM alpine" ++ nl ++ "```".

Definition docker_tag_reply : string :=
  "```docker" ++ nl ++ "FROM alpine" ++ nl ++ "```".

Definition spaced_dockerfile : string :=
  "FROM alpine" ++ nl ++ nl ++ "RUN true".

Definition indented_dockerfile : string :=
  "RUN apk add \" ++ nl ++ "    curl".

Definition tidy_dockerfile : string :=
  "FROM alpine" ++ nl ++ "RUN true".

Definition spec_k8s_reply : string :=
  "Sure!" ++ nl ++ "apiVersion: v1" ++ nl ++ "kind: Service" ++ nl ++ "---" ++ nl
  ++ "apiVersion: apps/v1" ++ nl ++ "kind: Deployment".

Definition blank_middle_bundle : string :=
  "kind: Service" ++ nl ++ "---" ++ nl ++ "---" ++ nl ++ "kind: Deployment".

(** The text holds no fenced-code-block delimiter; every variant the
    clean-up looks for starts with three backticks. *)
Definition fence_free (text : string) : Prop :=
  PyStr.contains "```" text = false.

(** No line of the text begins with a filler opener. *)
Definition no_filler_line (text : string) : Prop :=
  Forall (fun line => PyStr.startswith line "Here" = false
                      /\ PyStr.startswith line "This" = false)
         (PyStr.split text nl).

(** No line of the text is empty or carries blanks at either end. *)
Definition trimmed_lines (text : string) : Prop :=
  Forall (fun line => line <> EmptyString /\ PyStr.strip line = line)
         (PyStr.split text nl).

(** The probe table past its first two entries, the only ones whose
    files are parsed. *)
Definition other_package_files : PyDict.dict string :=
  tl (tl package_files).

(** The part of the state that only the two manifests write. *)
Definition manifest_part (st : state)
  : dependency_map * bool * Z * list warning :=
  (dependencies (fst st), is_web_app (fst st), default_port (fst st), snd st).

(** The state after the first loop. *)
Definition probed (r : repository) : state :=
  probe_package_files r (initial_analysis, []).

(** The state after the second loop. *)
Definition scanned (r : repository) : state :=
  probe_common_files r (probed r).

(** Case analysis on everything one iteration of a probe loop tests. *)
Ltac probe_cases :=
  unfold probe_package_file, probe_common_file, try_except,
    parse_package_json, parse_requirements;
  repeat match goal with
         | |- context [let '(_, _) := ?p in _] => destruct p
         | |- context [match ?o with Raised => _ | Returned _ => _ end] =>
             lazymatch o with
             | context [match _ with Raised => _ | Returned _ => _ end] => fail
             | _ => destruct o
             end
         | |- context [if ?b then _ else _] =>
             lazymatch b with
             | context [match _ with Raised => _ | Returned _ => _ end] => fail
             | context [if _ then _ else _] => fail
             | _ => destruct b eqn:?
             end
         end;
  try reflexivity.

(** A line as container-file recovery leaves it: not empty, no blanks at
    either end, no filler opener. *)
Definition tidy_line (line : string) : Prop :=
  line <> EmptyString /\
  PyStr.strip line = line /\
  PyStr.startswith line "Here" = false /\
  PyStr.startswith line "This" = false.

(** The first line of a text. *)
Definition first_line (text : string) : string :=
  hd EmptyString (PyStr.split text nl).

Definition plain_manifest : string :=
  "apiVersion: v1" ++ nl ++ "kind: Service" ++ nl ++ "# the end".

(** The labels the [if / elif] chain can give a manifest. *)
Definition manifest_labels : list string :=
  ["deployment"; "service"; "configmap"; "ingress"; "unknown"].

(** [analysis['languages'][0] if analysis['languages'] else 'unknown']
    (main.py, lines 186 and 251). *)
Definition primary_language (a : analysis) : string :=
  match languages a with
  | lang :: _ => lang
  | [] => "unknown"
  end.

Definition go_and_rust_repo : repository :=
  repo_with ["go.mod"; "Cargo.toml"; "README.md"] Raised Raised.

(* ================================================================== *)
(** ** The prompt builders' derived values *)
(* ================================================================== *)

Section Truthiness.

(** The truth value Python gives a parsed JSON number; it depends on
    how [json.load] reads the literal and is left open here. *)
Variable number_truthy : string -> bool.

(** [bool(v)] for a value that came out of [json.load]. *)
Definition truthy (v : json) : bool :=
  match v with
  | JNull => false
  | JBool b => b
  | JNumber literal => number_truthy literal
  | JString s => negb (String.eqb s EmptyString)
  | JArray items => match items with [] => false | _ => true end
  | JObject members => match members with [] => false | _ => true end
  end.

(** The name [_create_k8s_prompt] derives (main.py, lines 247-249):
    "myapp" unless [analysis['dependencies']['node']['name']] is truthy,
    in which case [.replace('_', '-').replace(' ', '-').lower()] is
    called on it; only a string has [replace]. *)
Definition k8s_app_name (a : analysis) : outcome string :=
  match dep_node (dependencies a) with
  | None => Returned "myapp"
  | Some summary =>
      if truthy (node_name summary) then
        match node_name summary with
        | JString name =>
            Returned
              (PyStr.lower
                 (PyStr.replace (PyStr.replace name "_" "-") " " "-"))
        | _ => Raised
        end
      else Returned "myapp"
  end.

End Truthiness.

(* ================================================================== *)
(** ** The calls to the inference backend *)
(* ================================================================== *)

(** What the program reads off a [requests] response:
    [response.status_code] and what [response.json()] does. *)
Record http_response : Type := {
  status_code : Z;
  json_body : outcome json
}.

(** [result.get('response', '').strip()]: [get] needs a dictionary and
    [strip] a string. *)
Definition response_text (result : json) : outcome string :=
  match result with
  | JObject members =>
      match PyDict.get_default members "response" (JString EmptyString) with
      | JString text => Returned (PyStr.strip text)
      | _ => Raised
      end
  | _ => Raised
  end.

(** The [try] block shared by [generate_dockerfile] and
    [generate_k8s_manifests]; [post] is what [requests.post] does, and
    every exception, the one raised for a status other than 200
    included, ends in [return None]. *)
Definition generate_with (clean : string -> string)
  (post : outcome http_response) : option string :=
  match post with
  | Raised => None
  | Returned response =>
      if (status_code response =? 200)%Z then
        match json_body response with
        | Raised => None
        | Returned result =>
            match response_text result with
            | Raised => None
            | Returned text => Some (clean text)
            end
        end
      else None
  end.

Definition generate_dockerfile (post : outcome http_response) : option string :=
  generate_with _clean_dockerfile_response post.

(** [generate_k8s_manifests] builds its prompt before the [try]: an
    exception of [_create_k8s_prompt] is not caught. *)
Definition generate_k8s_manifests (number_truthy : string -> bool)
  (a : analysis) (post : outcome http_response) : outcome (option string) :=
  match k8s_app_name number_truthy a with
  | Raised => Raised
  | Returned _ => Returned (generate_with _clean_k8s_response post)
  end.

(** [model['name']] *)
Definition model_name_of (model : json) : outcome json :=
  match model with
  | JObject members =>
      match PyDict.get members "name" with
      | Some name => Returned name
      | None => Raised
      end
  | _ => Raised
  end.

(** [[model['name'] for model in models]] over the items of a list. *)
Fixpoint model_names_of (items : list json) : outcome (list json) :=
  match items with
  | [] => Returned []
  | model :: rest =>
      match model_name_of model with
      | Raised => Raised
      | Returned name =>
          match model_names_of rest with
          | Raised => Raised
          | Returned names => Returned (name :: names)
          end
      end
  end.

(** The same comprehension over any value: a dictionary or a string is
    iterated too (over its keys or characters, which are strings and
    cannot be indexed by ['name']), anything else is not iterable. *)
Definition model_names (models : json) : outcome (list json) :=
  match models with
  | JArray items => model_names_of items
  | JObject [] => Returned []
  | JString EmptyString => Returned []
  | _ => Raised
  end.

(** An entry the comprehension can read: a dictionary with a ['name']. *)
Definition named_model (model : json) : Prop :=
  exists members name,
    model = JObject members /\ PyDict.get members "name" = Some name.

(** [self.model_name == name] for a parsed value. *)
Definition is_model (model_name : string) (name : json) : bool :=
  match name with
  | JString s => String.eqb model_name s
  | _ => false
  end.

(** [check_ollama_connection]; [tags] is what [requests.get] does. *)
Definition check_ollama_connection (model_name : string)
  (tags : outcome http_response) : bool :=
  match tags with
  | Raised => false
  | Returned response =>
      if (status_code response =? 200)%Z then
        match json_body response with
        | Returned (JObject members) =>
            match model_names (PyDict.get_default members "models" (JArray [])) with
            | Returned names => existsb (is_model model_name) names
            | Raised => false
            end
        | _ => false
        end
      else false
  end.

(* ================================================================== *)
(** ** The preview printed by main *)
(* ================================================================== *)

(** [content[:500] + "..." if len(content) > 500 else content]
    (main.py, line 377). *)
Definition preview (content : string) : string :=
  if (500 <? String.length content)%nat
  then substring 0 500 content ++ "..."
  else content.

Definition nameless_manifest : json :=
  JObject [("dependencies", JObject [("express", JString "^4")])].

Definition nameless_repo : repository :=
  repo_with ["package.json"] (Returned nameless_manifest) Raised.

Definition tags_reply (models : json) : outcome http_response :=
  Returned {| status_code := 200;
              json_body := Returned (JObject [("models", models)]) |}.

Definition generate_reply (text : string) : outcome http_response :=
  Returned {| status_code := 200;
              json_body := Returned (JObject [("response", JString text)]) |}.

Definition boolean_name_manifest : json :=
  JObject [("name", JBool true)].

Definition boolean_name_repo : repository :=
  repo_with ["package.json"] (Returned boolean_name_manifest) Raised.

(* ================================================================== *)
(** ** Sanity checks on concrete inputs *)
(* ================================================================== *)

Example split_ex1 : PyStr.split "a---b------c" "---" = ["a"; "b"; ""; "c"].
Proof. reflexivity. Qed.
Example split_ex2 : PyStr.split "" "---" = [""].
Proof. reflexivity. Qed.
Example split_ex3 : PyStr.split "----" "---" = [""; "-"].
Proof. reflexivity. Qed.
Example replace_ex1 : PyStr.replace "x```y``````z" "```" "" = "xyz".
Proof. reflexivity. Qed.
Example strip_ex1 : PyStr.strip ("  a b " ++ nl) = "a b".
Proof. reflexivity. Qed.
Example lines_ex1 : PyStr.file_lines ("a" ++ nl ++ nl ++ "b") = ["a" ++ nl; nl; "b"].
Proof. reflexivity. Qed.
Example of_nat_ex : PyStr.of_nat 0 = "0" /\ PyStr.of_nat 12 = "12".
Proof. split; reflexivity. Qed.
Example lower_ex : PyStr.lower "FastAPI" = "fastapi".
Proof. reflexivity. Qed.

(* ================================================================== *)
(** ** Facts about the string methods *)
(* ================================================================== *)

Section StringFacts.

Lemma prefix_empty (s : string) : prefix EmptyString s = true.
Proof. destruct s; reflexivity. Qed.

Lemma prefix_shorter (a b s : string) :
  prefix (a ++ b) s = true -> prefix a s = true.
Proof.
  revert s; induction a as [|c a IH]; intros s H.
  - apply prefix_empty.
  - destruct s as [|d s]; simpl in *; [discriminate|].
    destruct (ascii_dec c d); [auto | discriminate].
Qed.

Lemma contains_cons (sub : string) (c : ascii) (s : string) :
  PyStr.contains sub (String c s) = false ->
  prefix sub (String c s) = false /\ PyStr.contains sub s = false.
Proof.
  cbn [PyStr.contains]. intros H. apply orb_false_iff in H. exact H.
Qed.

Lemma contains_longer (a b s : string) :
  PyStr.contains a s = false -> PyStr.contains (a ++ b) s = false.
Proof.
  induction s as [|c s IH]; intros H.
  - cbn [PyStr.contains] in *. apply orb_false_iff in H. destruct H as [H _].
    apply orb_false_iff; split; [|reflexivity].
    destruct (prefix (a ++ b) "") eqn:E; [|reflexivity].
    apply prefix_shorter in E. congruence.
  - apply contains_cons in H. destruct H as [Hp Hs].
    cbn [PyStr.contains]. apply orb_false_iff; split; [|auto].
    destruct (prefix (a ++ b) (String c s)) eqn:E; [|reflexivity].
    apply prefix_shorter in E. congruence.
Qed.

(** [replace] leaves a text without any occurrence of [old] alone. *)
Lemma replace_absent (old new s : string) :
  PyStr.contains old s = false -> PyStr.replace s old new = s.
Proof.
  unfold PyStr.replace.
  induction s as [|c s IH]; intros H; [reflexivity|].
  apply contains_cons in H. destruct H as [Hp Hs].
  cbn [PyStr.replace_from]. rewrite Hp, (IH Hs). reflexivity.
Qed.

Lemma split_nonempty (sep : string) (k : nat) (s : string) :
  PyStr.split_from sep k s <> [].
Proof.
  revert k; induction s as [|c s IH]; intros k; cbn [PyStr.split_from];
    [easy|].
  destruct k; [|apply IH].
  destruct (prefix sep (String c s)); [easy|].
  specialize (IH 0). destruct (PyStr.split_from sep 0 s); [congruence|easy].
Qed.

Lemma join_push_char (sep : string) (c : ascii) (ps : list string) :
  ps <> [] -> PyStr.join sep (PyStr.push_char c ps) = String c (PyStr.join sep ps).
Proof.
  destruct ps as [|p [|q ps]]; intros H; [congruence | reflexivity | reflexivity].
Qed.

Lemma join_cons (sep p : string) (ps : list string) :
  ps <> [] -> PyStr.join sep (p :: ps) = p ++ sep ++ PyStr.join sep ps.
Proof. destruct ps; [congruence | reflexivity]. Qed.

(** Splitting on the newline and joining again gives the text back. *)
Lemma join_split_nl (s : string) : PyStr.join nl (PyStr.split s nl) = s.
Proof.
  unfold PyStr.split.
  induction s as [|c s IH]; [reflexivity|].
  cbn [PyStr.split_from].
  destruct (prefix nl (String c s)) eqn:E.
  - unfold nl in E. cbn [prefix] in E.
    destruct (ascii_dec "010" c) as [<-|]; [|discriminate E].
    change (pred (length nl)) with 0.
    rewrite join_cons by apply split_nonempty.
    rewrite IH. reflexivity.
  - rewrite join_push_char by apply split_nonempty.
    rewrite IH. reflexivity.
Qed.

End StringFacts.

(* ================================================================== *)
(** ** The plain fence leaves nothing for a later tagged replace *)
(* ================================================================== *)

Section PlainFence.

Lemma prefix_cons (a b : ascii) (p s : string) :
  prefix (String a p) (String b s) = if ascii_dec a b then prefix p s else false.
Proof. reflexivity. Qed.

Lemma prefix_app_inv (p s : string) :
  prefix p s = true -> exists rest, s = p ++ rest.
Proof.
  revert s; induction p as [|a p IH]; intros s H.
  - exists s. reflexivity.
  - destruct s as [|b s]; [discriminate H|].
    rewrite prefix_cons in H. destruct (ascii_dec a b) as [<-|]; [|discriminate H].
    destruct (IH s H) as [rest ->]. exists rest. reflexivity.
Qed.

Lemma replace_plain_fence_match (rest : string) :
  PyStr.replace ("```" ++ rest) "```" "" = PyStr.replace rest "```" "".
Proof. unfold PyStr.replace. cbn. rewrite prefix_empty. reflexivity. Qed.

Lemma replace_plain_fence_step (c : ascii) (s : string) :
  prefix "```" (String c s) = false ->
  PyStr.replace (String c s) "```" "" = String c (PyStr.replace s "```" "").
Proof.
  intros H. unfold PyStr.replace. cbn [PyStr.replace_from]. rewrite H.
  reflexivity.
Qed.

(** After [replace('```', '')] no triple backtick is left, and the
    result starts with no more backticks than the text did. *)
Lemma replace_plain_fence_bounded (n : nat) (s : string) :
  String.length s <= n ->
  PyStr.contains "```" (PyStr.replace s "```" "") = false /\
  (prefix "`" s = false -> prefix "`" (PyStr.replace s "```" "") = false) /\
  (prefix "``" s = false -> prefix "``" (PyStr.replace s "```" "") = false).
Proof.
  revert s; induction n as [|n IH]; intros s Hlen.
  - destruct s; [|cbn in Hlen; lia]. repeat split.
  - destruct s as [|c s]; [repeat split|].
    destruct (prefix "```" (String c s)) eqn:E.
    + destruct (prefix_app_inv _ _ E) as [rest Hrest]. rewrite Hrest.
      rewrite replace_plain_fence_match.
      assert (String.length rest <= n) as Hrest_len.
      { rewrite Hrest in Hlen. cbn in Hlen. lia. }
      destruct (IH rest Hrest_len) as (Hclean & _ & _).
      split; [exact Hclean|]. split; intros H; discriminate H.
    + rewrite (replace_plain_fence_step c s E).
      assert (String.length s <= n) as Hs by (cbn in Hlen; lia).
      destruct (IH s Hs) as (Hclean & Hone & Htwo).
      rewrite prefix_cons in E.
      split; [|split].
      * cbn [PyStr.contains]. rewrite Hclean, orb_false_r.
        rewrite prefix_cons. destruct (ascii_dec "`" c); [|reflexivity].
        apply Htwo. exact E.
      * rewrite !prefix_cons.
        destruct (ascii_dec "`" c); [|reflexivity].
        rewrite !prefix_empty. intros H; discriminate H.
      * rewrite !prefix_cons.
        destruct (ascii_dec "`" c); [|reflexivity].
        exact Hone.
Qed.

Lemma replace_plain_fence_clean (s : string) :
  PyStr.contains "```" (PyStr.replace s "```" "") = false.
Proof.
  apply (replace_plain_fence_bounded (String.length s) s). apply le_n.
Qed.

(** The third [replace] of [_clean_dockerfile_response] never changes
    anything: whatever the response, the text it is applied to holds no
    triple backtick any more. *)
Lemma docker_tag_replace_is_dead (response : string) :
  strip_dockerfile_fences response
  = PyStr.replace (PyStr.replace response "```dockerfile" "") "```" "".
Proof.
  unfold strip_dockerfile_fences. apply replace_absent.
  apply (contains_longer "```" "docker"). apply replace_plain_fence_clean.
Qed.

(** The stripped text is always free of fences, also of the tagged
    ones. *)
Lemma strip_dockerfile_fences_fence_free (response : string) :
  fence_free (strip_dockerfile_fences response).
Proof.
  unfold fence_free. rewrite docker_tag_replace_is_dead.
  apply replace_plain_fence_clean.
Qed.

End PlainFence.

(* ================================================================== *)
(** ** Container-file recovery *)
(* ================================================================== *)

Section DockerfileRecovery.

(** The loop trims every line and keeps those that pass the test, in
    their original order. *)
Lemma dockerfile_lines_filter (raw : list string) :
  dockerfile_lines raw = filter keep_dockerfile_line (map PyStr.strip raw).
Proof.
  induction raw as [|line rest IH]; [reflexivity|].
  cbn [dockerfile_lines map filter].
  destruct (keep_dockerfile_line (PyStr.strip line)); rewrite IH; reflexivity.
Qed.

Lemma dockerfile_lines_fixed (raw : list string) :
  Forall (fun line => PyStr.startswith line "Here" = false
                      /\ PyStr.startswith line "This" = false) raw ->
  Forall (fun line => line <> EmptyString /\ PyStr.strip line = line) raw ->
  dockerfile_lines raw = raw.
Proof.
  induction raw as [|line rest IH]; intros Hf Ht; [reflexivity|].
  inversion Hf as [|? ? [Hhere Hthis] Hf']; subst.
  inversion Ht as [|? ? [Hne Hstrip] Ht']; subst.
  cbn [dockerfile_lines]. rewrite Hstrip.
  unfold keep_dockerfile_line. rewrite Hhere, Hthis.
  destruct (String.eqb_spec line EmptyString) as [->|_]; [congruence|].
  cbn [negb andb]. rewrite IH; auto.
Qed.

Lemma strip_dockerfile_fences_absent (text : string) :
  fence_free text -> strip_dockerfile_fences text = text.
Proof.
  unfold fence_free, strip_dockerfile_fences. intros H.
  rewrite (replace_absent "```dockerfile" "" text)
    by apply (contains_longer "```" "dockerfile" text H).
  rewrite (replace_absent "```" "" text H).
  apply replace_absent.
  apply (contains_longer "```" "docker" text H).
Qed.

(** The example of the specification, with the [dockerfile] tag. *)
Example clean_dockerfile_spec_example :
  _clean_dockerfile_response spec_dockerfile_reply = "FROM alpine".
Proof. reflexivity. Qed.

(** Indentation of a continuation line does not survive either. *)
Example clean_dockerfile_drops_indentation :
  _clean_dockerfile_response indented_dockerfile
  = "RUN apk add \" ++ nl ++ "curl".
Proof. reflexivity. Qed.

(** C3, as stated, fails: a text with no fence and no filler line, but
    with an empty line between two instructions, does not come back
    unchanged; the empty line is gone. *)
Lemma clean_dockerfile_drops_blank_line :
  fence_free spaced_dockerfile /\
  no_filler_line spaced_dockerfile /\
  _clean_dockerfile_response spaced_dockerfile = "FROM alpine" ++ nl ++ "RUN true" /\
  _clean_dockerfile_response spaced_dockerfile <> spaced_dockerfile.
Proof.
  split; [reflexivity|].
  split; [repeat (apply Forall_cons; [split; reflexivity|]); apply Forall_nil|].
  split; [reflexivity|].
  cbv. discriminate.
Qed.

(** C3, amended: a text with no triple backtick whose lines are all
    non-empty, free of blanks at both ends and do not begin with "Here"
    or "This" is returned unchanged by container-file recovery. *)
Theorem clean_dockerfile_fixes_trimmed_text (text : string) :
  fence_free text -> no_filler_line text -> trimmed_lines text ->
  _clean_dockerfile_response text = text.
Proof.
  intros Hfence Hfiller Htrim.
  unfold _clean_dockerfile_response.
  rewrite strip_dockerfile_fences_absent by assumption.
  rewrite dockerfile_lines_fixed by assumption.
  apply join_split_nl.
Qed.

Lemma clean_dockerfile_fixes_trimmed_text_witness :
  _clean_dockerfile_response tidy_dockerfile = tidy_dockerfile.
Proof.
  apply (clean_dockerfile_fixes_trimmed_text tidy_dockerfile).
  - reflexivity.
  - repeat (apply Forall_cons; [split; reflexivity|]). apply Forall_nil.
  - repeat (apply Forall_cons; [split; [discriminate | reflexivity]|]).
    apply Forall_nil.
Defined.

(** C4 at the input that starts with the [docker]-tagged fence: the
    plain fence is replaced first, so the tag is left behind as a line
    of its own and the third [replace] finds nothing (it never does,
    see [docker_tag_replace_is_dead]). *)
Theorem clean_dockerfile_leaves_docker_tag :
  PyStr.contains "```docker" docker_tag_reply = true /\
  strip_dockerfile_fences docker_tag_reply = "docker" ++ nl ++ "FROM alpine" ++ nl /\
  _clean_dockerfile_response docker_tag_reply = "docker" ++ nl ++ "FROM alpine".
Proof. repeat split; reflexivity. Qed.

End DockerfileRecovery.

(* ================================================================== *)
(** ** Orchestration-bundle recovery *)
(* ================================================================== *)

Section K8sRecovery.

Lemma k8s_lines_started (lines : list string) : k8s_lines true lines = lines.
Proof.
  induction lines as [|line rest IH]; [reflexivity|].
  cbn [k8s_lines negb]. rewrite IH. reflexivity.
Qed.

(** The loop is a drop-while: a prefix of lines that do not start the
    document is dropped, the rest is kept as it is. *)
Lemma k8s_lines_seek (lines : list string) :
  exists dropped,
    lines = (dropped ++ k8s_lines false lines)%list /\
    Forall (fun line => starts_yaml line = false) dropped /\
    match k8s_lines false lines with
    | [] => True
    | first :: _ => starts_yaml first = true
    end.
Proof.
  induction lines as [|line rest (dropped & Hsplit & Hdrop & Hhead)].
  - exists []. repeat split; constructor.
  - cbn [k8s_lines negb]. destruct (starts_yaml line) eqn:E.
    + exists []. rewrite k8s_lines_started. repeat split; [constructor|assumption].
    + exists (line :: dropped). cbn [app]. rewrite <- Hsplit.
      repeat split; [constructor; assumption|assumption].
Qed.

Lemma k8s_lines_none (lines : list string) :
  Forall (fun line => starts_yaml line = false) lines ->
  k8s_lines false lines = [].
Proof.
  induction 1 as [|line rest Hline _ IH]; [reflexivity|].
  cbn [k8s_lines negb]. rewrite Hline. exact IH.
Qed.

(** C5: once the fences are stripped, the lines before the first one
    whose trimmed form starts with "apiVersion:" or "---" are dropped,
    that line and all later ones are kept as they are, and when no line
    qualifies the result is the empty string. *)
Theorem clean_k8s_keeps_from_first_yaml_line (response : string) :
  let lines := PyStr.split (strip_k8s_fences response) nl in
  (exists dropped kept,
     lines = (dropped ++ kept)%list /\
     Forall (fun line => starts_yaml line = false) dropped /\
     match kept with
     | [] => True
     | first :: _ => starts_yaml first = true
     end /\
     _clean_k8s_response response = PyStr.join nl kept) /\
  (Forall (fun line => starts_yaml line = false) lines ->
   _clean_k8s_response response = EmptyString).
Proof.
  intros lines. split.
  - destruct (k8s_lines_seek lines) as (dropped & Hsplit & Hdrop & Hhead).
    exists dropped, (k8s_lines false lines).
    repeat split; assumption || reflexivity.
  - intros Hnone. unfold _clean_k8s_response. fold lines.
    rewrite (k8s_lines_none lines Hnone). reflexivity.
Qed.

Lemma clean_k8s_keeps_from_first_yaml_line_witness :
  _clean_k8s_response ("Sure!" ++ nl ++ "```yaml" ++ nl ++ "no manifest") = EmptyString.
Proof.
  apply (proj2 (clean_k8s_keeps_from_first_yaml_line
                  ("Sure!" ++ nl ++ "```yaml" ++ nl ++ "no manifest"))).
  repeat (apply Forall_cons; [reflexivity|]). apply Forall_nil.
Defined.

(** The seek phase absorbs the chatter of the specification's example. *)
Example clean_k8s_spec_example :
  _clean_k8s_response spec_k8s_reply
  = "apiVersion: v1" ++ nl ++ "kind: Service" ++ nl ++ "---" ++ nl
    ++ "apiVersion: apps/v1" ++ nl ++ "kind: Deployment".
Proof. reflexivity. Qed.

End K8sRecovery.

(* ================================================================== *)
(** ** Splitting the manifests *)
(* ================================================================== *)

Section ManifestSplitter.

(** The loop numbers the pieces as [enumerate] does, blank ones
    included, and then leaves the blank ones out. *)
Lemma save_manifests_enumerate (i : nat) (manifests : list string) :
  save_manifests i manifests
  = map fragment_of
        (filter (fun item => nonblank (snd item))
                (combine (seq i (List.length manifests)) manifests)).
Proof.
  revert i; induction manifests as [|m rest IH]; intros i; [reflexivity|].
  cbn [save_manifests List.length seq combine filter snd].
  destruct (nonblank m); cbn [map]; rewrite IH; reflexivity.
Qed.

(** Ordinals grow strictly along the output, so no two fragments share
    one. *)
Lemma save_manifests_ordinals_bounded (i : nat) (manifests : list string) :
  Forall (fun f => i <= ordinal f) (save_manifests i manifests).
Proof.
  revert i; induction manifests as [|m rest IH]; intros i; [constructor|].
  cbn [save_manifests].
  assert (Forall (fun f => i <= ordinal f) (save_manifests (S i) rest)) as H.
  { eapply Forall_impl; [|apply IH]. cbn; intros; lia. }
  destruct (nonblank m); [constructor; [cbn; lia | exact H] | exact H].
Qed.

Lemma save_manifests_ordinals_nodup (i : nat) (manifests : list string) :
  NoDup (map ordinal (save_manifests i manifests)).
Proof.
  revert i; induction manifests as [|m rest IH]; intros i; [constructor|].
  cbn [save_manifests]. destruct (nonblank m); [|apply IH].
  cbn [map ordinal]. constructor; [|apply IH].
  intros Hin. apply in_map_iff in Hin. destruct Hin as (f & Hf & Hin).
  pose proof (save_manifests_ordinals_bounded (S i) rest) as Hb.
  rewrite Forall_forall in Hb. specialize (Hb f Hin). lia.
Qed.

(** C2, as stated, fails: three fragments with a blank one in the
    middle come out with the ordinals 0 and 2, not 0 and 1. *)
Lemma blank_middle_leaves_gap :
  PyStr.split blank_middle_bundle "---"
    = ["kind: Service" ++ nl; nl; nl ++ "kind: Deployment"] /\
  map fragment_filename (split_manifests blank_middle_bundle)
    = ["k8s-service-0.yaml"; "k8s-deployment-2.yaml"] /\
  map ordinal (split_manifests blank_middle_bundle) = [0; 2] /\
  spec_ordinals blank_middle_bundle = [0; 1] /\
  map ordinal (split_manifests blank_middle_bundle)
    <> spec_ordinals blank_middle_bundle.
Proof. repeat split; try reflexivity. vm_compute. discriminate. Qed.

(** C2, amended: every surviving fragment carries the 0-based position
    it has among all separator-delimited fragments, the blank ones
    counted; three fragments with a blank middle one give the ordinals
    0 and 2. *)
Theorem split_manifests_numbers_all_pieces (k8s_content : string) :
  split_manifests k8s_content
  = map fragment_of
        (filter (fun item => nonblank (snd item))
                (enumerate (PyStr.split k8s_content "---"))) /\
  (forall a b c,
     PyStr.split k8s_content "---" = [a; b; c] ->
     nonblank a = true -> nonblank b = false -> nonblank c = true ->
     map ordinal (split_manifests k8s_content) = [0; 2]).
Proof.
  split; [apply save_manifests_enumerate|].
  intros a b c Hsplit Ha Hb Hc.
  unfold split_manifests. rewrite Hsplit.
  cbn [save_manifests]. rewrite Ha, Hb, Hc. reflexivity.
Qed.

Lemma split_manifests_numbers_all_pieces_witness :
  map ordinal (split_manifests blank_middle_bundle) = [0; 2].
Proof.
  apply (proj2 (split_manifests_numbers_all_pieces blank_middle_bundle)
               ("kind: Service" ++ nl) nl (nl ++ "kind: Deployment"));
    reflexivity.
Defined.

(** The example of the specification: chatter dropped, two fragments. *)
Example split_manifests_spec_example :
  map (fun f => (manifest_type f, ordinal f))
      (split_manifests (_clean_k8s_response spec_k8s_reply))
  = [("service", 0); ("deployment", 1)].
Proof. reflexivity. Qed.

End ManifestSplitter.

(* ================================================================== *)
(** ** Generic facts about loops and dictionaries *)
(* ================================================================== *)

Section Loops.

Context {S A B : Type}.
Variable step : S -> A -> S.
Variable proj : S -> B.

(** A loop seen through a projection that each iteration updates on its
    own. *)
Lemma fold_left_project (h : B -> A -> B) (items : list A) :
  (forall s a, In a items -> proj (step s a) = h (proj s) a) ->
  forall s, proj (fold_left step items s) = fold_left h items (proj s).
Proof.
  induction items as [|a items IH]; intros Hstep s; [reflexivity|].
  cbn [fold_left]. rewrite IH.
  - rewrite Hstep by (left; reflexivity). reflexivity.
  - intros s' a' Hin. apply Hstep. right. exact Hin.
Qed.

Lemma fold_left_preserves (items : list A) :
  (forall s a, In a items -> proj (step s a) = proj s) ->
  forall s, proj (fold_left step items s) = proj s.
Proof.
  intros Hstep s.
  rewrite (fold_left_project (fun b _ => b)) by assumption.
  clear Hstep. induction items; [reflexivity | assumption].
Qed.

Lemma fold_left_cons2 (a b : A) (items : list A) (s : S) :
  fold_left step (a :: b :: items) s = fold_left step items (step (step s a) b).
Proof. reflexivity. Qed.

End Loops.

Section Collecting.

Context {A B : Type}.

Lemma fold_left_append (keep : A -> bool) (g : A -> B) (items : list A)
  (acc : list B) :
  fold_left (fun acc a => if keep a then acc ++ [g a] else acc)%list items acc
  = (acc ++ map g (filter keep items))%list.
Proof.
  revert acc; induction items as [|a items IH]; intros acc.
  - cbn. rewrite app_nil_r. reflexivity.
  - cbn [fold_left filter]. rewrite IH. destruct (keep a); [|reflexivity].
    cbn [map]. rewrite <- app_assoc. reflexivity.
Qed.

Lemma NoDup_map_filter (f : A -> B) (keep : A -> bool) (items : list A) :
  NoDup (map f items) -> NoDup (map f (filter keep items)).
Proof.
  induction items as [|a items IH]; intros H; [constructor|].
  inversion H as [|? ? Hnotin Hrest]; subst.
  cbn [filter]. destruct (keep a); [|auto].
  cbn [map]. constructor; [|auto].
  intros Hin. apply Hnotin.
  apply in_map_iff in Hin. destruct Hin as (x & Hx & Hin).
  apply filter_In in Hin. apply in_map_iff. exists x. tauto.
Qed.

End Collecting.

Section Dictionaries.

Lemma mem_In (x : string) (xs : list string) :
  PyStr.mem x xs = true <-> In x xs.
Proof.
  unfold PyStr.mem. rewrite existsb_exists. split.
  - intros (y & Hin & Heq). apply String.eqb_eq in Heq. subst. exact Hin.
  - intros Hin. exists x. split; [exact Hin | apply String.eqb_refl].
Qed.

Lemma set_fresh {V} (d : PyDict.dict V) (k : string) (v : V) :
  ~ In k (PyDict.keys d) -> PyDict.set d k v = (d ++ [(k, v)])%list.
Proof.
  induction d as [|[k' v'] d IH]; intros Hfresh; [reflexivity|].
  cbn [PyDict.set app]. cbn in Hfresh.
  destruct (String.eqb_spec k k') as [->|_]; [tauto|].
  rewrite IH by tauto. reflexivity.
Qed.

Lemma keys_flags (names : list string) : PyDict.keys (flags names) = names.
Proof.
  unfold PyDict.keys, flags. rewrite map_map. cbn. apply map_id.
Qed.

Lemma flags_app (xs ys : list string) :
  flags (xs ++ ys) = (flags xs ++ flags ys)%list.
Proof. apply map_app. Qed.

(** Assigning [True] under pairwise distinct names, in order, builds the
    dictionary that lists them in that order. *)
Lemma set_all_flags (names done : list string) :
  NoDup (done ++ names) ->
  fold_left (fun d name => PyDict.set d name true) names (flags done)
  = flags (done ++ names).
Proof.
  revert done; induction names as [|name names IH]; intros done Hnd.
  - rewrite app_nil_r. reflexivity.
  - cbn [fold_left]. rewrite set_fresh.
    + change [(name, true)] with (flags [name]).
      rewrite <- flags_app.
      rewrite IH; rewrite <- app_assoc; [reflexivity | exact Hnd].
    + rewrite keys_flags. apply NoDup_remove_2 in Hnd.
      intros Hin. apply Hnd. apply in_or_app. left. exact Hin.
Qed.

Lemma fold_left_set_flags {A} (keep : A -> bool) (name : A -> string)
  (items : list A) :
  NoDup (map name items) ->
  fold_left (fun d a => if keep a then PyDict.set d (name a) true else d)
            items []
  = flags (map name (filter keep items)).
Proof.
  intros Hnd.
  assert (forall d,
            fold_left (fun d a => if keep a then PyDict.set d (name a) true else d)
                      items d
            = fold_left (fun d n => PyDict.set d n true)
                        (map name (filter keep items)) d) as Hfilter.
  { clear Hnd. induction items as [|a items IH]; intros d; [reflexivity|].
    cbn [fold_left filter]. destruct (keep a); cbn [map fold_left]; apply IH. }
  rewrite Hfilter.
  apply (set_all_flags (map name (filter keep items)) []).
  apply NoDup_map_filter. exact Hnd.
Qed.

End Dictionaries.

(* ================================================================== *)
(** ** analyze_repository in closed form *)
(* ================================================================== *)

Section Analysis.

Variable r : repository.

Lemma probe_languages (st : state) (item : string * string) :
  languages (fst (probe_package_file r st item))
  = if has_file r (fst item)
    then (languages (fst st) ++ [snd item])%list
    else languages (fst st).
Proof. destruct item as [file_name lang]; cbn [fst snd]; probe_cases. Qed.

Lemma probe_package_managers (st : state) (item : string * string) :
  package_managers (fst (probe_package_file r st item))
  = if has_file r (fst item)
    then PyDict.set (package_managers (fst st)) (fst item) true
    else package_managers (fst st).
Proof. destruct item as [file_name lang]; cbn [fst snd]; probe_cases. Qed.

Lemma probe_frameworks (st : state) (item : string * string) :
  frameworks (fst (probe_package_file r st item)) = frameworks (fst st).
Proof. probe_cases. Qed.

Lemma probe_entry_points (st : state) (item : string * string) :
  entry_points (fst (probe_package_file r st item)) = entry_points (fst st).
Proof. probe_cases. Qed.

Lemma probe_structure (st : state) (item : string * string) :
  structure (fst (probe_package_file r st item)) = structure (fst st).
Proof. probe_cases. Qed.

(** Only [package.json] and [requirements.txt] are parsed. *)
Lemma probe_manifest_part (st : state) (item : string * string) :
  String.eqb (fst item) "package.json" = false ->
  String.eqb (fst item) "requirements.txt" = false ->
  manifest_part (probe_package_file r st item) = manifest_part st.
Proof.
  destruct item as [file_name lang]; cbn [fst]; intros Hpkg Hreq.
  unfold probe_package_file. rewrite Hpkg, Hreq. cbn [andb].
  destruct (has_file r file_name); reflexivity.
Qed.

Lemma common_languages (st : state) (file_name : string) :
  languages (fst (probe_common_file r st file_name)) = languages (fst st).
Proof. probe_cases. Qed.

Lemma common_package_managers (st : state) (file_name : string) :
  package_managers (fst (probe_common_file r st file_name))
  = package_managers (fst st).
Proof. probe_cases. Qed.

Lemma common_frameworks (st : state) (file_name : string) :
  frameworks (fst (probe_common_file r st file_name)) = frameworks (fst st).
Proof. probe_cases. Qed.

Lemma common_manifest_part (st : state) (file_name : string) :
  manifest_part (probe_common_file r st file_name) = manifest_part st.
Proof. probe_cases. Qed.

Lemma common_structure (st : state) (file_name : string) :
  structure (fst (probe_common_file r st file_name))
  = if has_file r file_name
    then PyDict.set (structure (fst st)) file_name true
    else structure (fst st).
Proof. probe_cases. Qed.

Lemma common_entry_points (st : state) (file_name : string) :
  entry_points (fst (probe_common_file r st file_name))
  = if has_file r file_name && PyStr.mem file_name entry_point_names
    then (entry_points (fst st) ++ [file_name])%list
    else entry_points (fst st).
Proof.
  unfold probe_common_file.
  destruct (has_file r file_name), (PyStr.mem file_name entry_point_names);
    reflexivity.
Qed.

Lemma package_files_split :
  package_files
  = ("package.json", "node") :: ("requirements.txt", "python")
      :: other_package_files.
Proof. reflexivity. Qed.

Lemma other_package_files_unparsed (item : string * string) :
  In item other_package_files ->
  String.eqb (fst item) "package.json" = false /\
  String.eqb (fst item) "requirements.txt" = false.
Proof.
  cbn. intros H.
  repeat (destruct H as [<-|H]; [split; reflexivity|]).
  contradiction.
Qed.

Lemma probed_languages : languages (fst (probed r)) = map snd (present_probes r).
Proof.
  unfold probed, probe_package_files. etransitivity.
  - apply (fold_left_project (probe_package_file r)
             (fun st => languages (fst st))
             (fun acc item => if has_file r (fst item)
                              then acc ++ [snd item] else acc)%list).
    intros; apply probe_languages.
  - exact (fold_left_append (fun item => has_file r (fst item)) snd
             package_files []).
Qed.

Lemma probed_package_managers :
  package_managers (fst (probed r)) = flags (map fst (present_probes r)).
Proof.
  unfold probed, probe_package_files. etransitivity.
  - apply (fold_left_project (probe_package_file r)
             (fun st => package_managers (fst st))
             (fun d item => if has_file r (fst item)
                            then PyDict.set d (fst item) true else d)).
    intros; apply probe_package_managers.
  - apply (fold_left_set_flags (fun item => has_file r (fst item)) fst).
    cbn. repeat (constructor; [cbn; intuition discriminate|]). constructor.
Qed.

(** What the iteration for [package.json] leaves in a fresh state. *)
Lemma package_json_step :
  manifest_part
    (probe_package_file r (initial_analysis, []) ("package.json", "node"))
  = ({| dep_node := entry (node_verdict r); dep_python := None |},
     web (node_verdict r),
     3000%Z,
     if raised (node_verdict r) then [WarnPackageJson] else []).
Proof.
  unfold node_verdict, probe_package_file, try_except, parse_package_json.
  cbn [String.eqb Ascii.eqb Bool.eqb andb fst snd].
  destruct (has_file r "package.json"); [|reflexivity].
  destruct (package_json r) as [|pkg_json]; [reflexivity|].
  destruct (summarize_package pkg_json) as [|summary]; [reflexivity|].
  destruct (node_is_web (node_dependencies summary)); reflexivity.
Qed.

(** What the iteration for [requirements.txt] does to any state. *)
Lemma requirements_step (st : state) :
  manifest_part (probe_package_file r st ("requirements.txt", "python"))
  = ({| dep_node := dep_node (dependencies (fst st));
        dep_python := match entry (python_verdict r) with
                      | Some reqs => Some reqs
                      | None => dep_python (dependencies (fst st))
                      end |},
     is_web_app (fst st) || web (python_verdict r),
     match entry (python_verdict r) with
     | Some reqs => if web (python_verdict r) then python_port reqs
                    else default_port (fst st)
     | None => default_port (fst st)
     end,
     (snd st ++ if raised (python_verdict r) then [WarnRequirements] else [])%list).
Proof.
  destruct st as [[ls fs pm ep [dn dp] sr w p] ws].
  unfold python_verdict, probe_package_file, try_except, parse_requirements,
    manifest_part.
  cbn [String.eqb Ascii.eqb Bool.eqb andb fst snd].
  destruct (has_file r "requirements.txt"); cbn [andb];
    [destruct (requirements_txt r) as [|text];
     [|destruct (python_is_web (requirement_names text))]|];
    destruct w; cbn; rewrite ?app_nil_r; reflexivity.
Qed.

Lemma probed_manifest_part :
  manifest_part (probed r)
  = ({| dep_node := entry (node_verdict r);
        dep_python := entry (python_verdict r) |},
     web (node_verdict r) || web (python_verdict r),
     derived_port r,
     derived_warnings r).
Proof.
  unfold probed, probe_package_files. rewrite package_files_split.
  rewrite fold_left_cons2.
  rewrite (fold_left_preserves (probe_package_file r) manifest_part
             other_package_files).
  - rewrite requirements_step.
    pose proof package_json_step as Hstep.
    remember (probe_package_file r (initial_analysis, [])
                ("package.json", "node")) as st1 eqn:Hst1.
    clear Hst1. unfold manifest_part in Hstep.
    injection Hstep as Hd Hw Hp Hws.
    rewrite Hd, Hw, Hp, Hws. cbn [dep_node dep_python].
    unfold derived_port, derived_warnings.
    destruct (entry (python_verdict r)); reflexivity.
  - intros st item Hin.
    destruct (other_package_files_unparsed item Hin) as [Hpkg Hreq].
    apply probe_manifest_part; assumption.
Qed.

Lemma probed_structure : structure (fst (probed r)) = [].
Proof.
  unfold probed, probe_package_files.
  apply (fold_left_preserves (probe_package_file r)
           (fun st => structure (fst st))).
  intros; apply probe_structure.
Qed.

Lemma probed_entry_points : entry_points (fst (probed r)) = [].
Proof.
  unfold probed, probe_package_files.
  apply (fold_left_preserves (probe_package_file r)
           (fun st => entry_points (fst st))).
  intros; apply probe_entry_points.
Qed.

Lemma scanned_structure :
  structure (fst (scanned r)) = flags (filter (has_file r) common_files).
Proof.
  unfold scanned, probe_common_files. etransitivity.
  - apply (fold_left_project (probe_common_file r)
             (fun st => structure (fst st))
             (fun d name => if has_file r name
                            then PyDict.set d name true else d)).
    intros; apply common_structure.
  - cbv beta. rewrite probed_structure.
    rewrite (fold_left_set_flags (has_file r) (fun name => name)).
    + rewrite map_id. reflexivity.
    + rewrite map_id.
      repeat (constructor; [cbn; intuition discriminate|]). constructor.
Qed.

Lemma scanned_entry_points :
  entry_points (fst (scanned r)) = filter (has_file r) entry_point_names.
Proof.
  unfold scanned, probe_common_files. etransitivity.
  - apply (fold_left_project (probe_common_file r)
             (fun st => entry_points (fst st))
             (fun acc name =>
                if has_file r name && PyStr.mem name entry_point_names
                then acc ++ [name] else acc)%list).
    intros; apply common_entry_points.
  - cbv beta. rewrite probed_entry_points.
    rewrite (fold_left_append
               (fun name => has_file r name && PyStr.mem name entry_point_names)
               (fun name => name)).
    rewrite map_id. cbn [app].
    unfold common_files, entry_point_names.
    cbn [filter PyStr.mem existsb String.eqb Ascii.eqb Bool.eqb orb andb].
    repeat rewrite andb_false_r. repeat rewrite andb_true_r.
    reflexivity.
Qed.

Lemma scanned_frameworks : frameworks (fst (scanned r)) = [].
Proof.
  unfold scanned, probe_common_files. etransitivity.
  - apply (fold_left_preserves (probe_common_file r)
             (fun st => frameworks (fst st))).
    intros; apply common_frameworks.
  - unfold probed, probe_package_files.
    apply (fold_left_preserves (probe_package_file r)
             (fun st => frameworks (fst st))).
    intros; apply probe_frameworks.
Qed.

Lemma scanned_languages : languages (fst (scanned r)) = map snd (present_probes r).
Proof.
  unfold scanned, probe_common_files. etransitivity; [|apply probed_languages].
  apply (fold_left_preserves (probe_common_file r)
           (fun st => languages (fst st))).
  intros; apply common_languages.
Qed.

Lemma scanned_package_managers :
  package_managers (fst (scanned r)) = flags (map fst (present_probes r)).
Proof.
  unfold scanned, probe_common_files. etransitivity; [|apply probed_package_managers].
  apply (fold_left_preserves (probe_common_file r)
           (fun st => package_managers (fst st))).
  intros; apply common_package_managers.
Qed.

Lemma scanned_manifest_part : manifest_part (scanned r) = manifest_part (probed r).
Proof.
  unfold scanned, probe_common_files.
  apply (fold_left_preserves (probe_common_file r) manifest_part).
  intros; apply common_manifest_part.
Qed.

Lemma analyze_repository_scanned :
  path_exists r = true -> analyze_repository r = Return (scanned r).
Proof.
  intros Hexists. unfold analyze_repository, scanned, probed.
  rewrite Hexists. cbn [negb]. reflexivity.
Qed.

(** Whenever the path exists the function returns, and what it returns
    is the profile in closed form together with one warning per
    manifest that could not be parsed. *)
Lemma analyze_repository_closed_form :
  path_exists r = true ->
  analyze_repository r = Return (derived_analysis r, derived_warnings r).
Proof.
  intros Hexists. rewrite (analyze_repository_scanned Hexists). f_equal.
  pose proof scanned_languages as Hl.
  pose proof scanned_package_managers as Hp.
  pose proof scanned_manifest_part as Hm.
  pose proof scanned_structure as Hs.
  pose proof scanned_entry_points as He.
  pose proof scanned_frameworks as Hf.
  rewrite probed_manifest_part in Hm. unfold manifest_part in Hm.
  destruct (scanned r) as [[ls fs pm ep ds sr w p] ws].
  cbn [fst snd languages frameworks package_managers entry_points
       dependencies structure is_web_app default_port] in *.
  inversion Hm. subst. reflexivity.
Qed.

End Analysis.

(* ================================================================== *)
(** ** Properties of the repository profile *)
(* ================================================================== *)

Section Profile.

Lemma analyze_repository_returns (r : repository) (st : state) :
  analyze_repository r = Return st ->
  path_exists r = true /\ st = (derived_analysis r, derived_warnings r).
Proof.
  intros H. destruct (path_exists r) eqn:Hexists.
  - rewrite (analyze_repository_closed_form r Hexists) in H.
    injection H as <-. split; reflexivity.
  - unfold analyze_repository in H. rewrite Hexists in H. discriminate H.
Qed.

Lemma NoDup_map_injective {A B} (f : A -> B) (items : list A) (x y : A) :
  NoDup (map f items) -> In x items -> In y items -> f x = f y -> x = y.
Proof.
  induction items as [|a items IH]; intros Hnd Hx Hy Heq; [contradiction|].
  inversion Hnd as [|? ? Hnotin Hrest]; subst.
  destruct Hx as [->|Hx], Hy as [->|Hy]; auto.
  - exfalso. apply Hnotin. rewrite Heq. apply in_map. exact Hy.
  - exfalso. apply Hnotin. rewrite <- Heq. apply in_map. exact Hx.
Qed.

(** In a table with distinct keys, the values of the kept entries are
    distinct exactly when no two kept keys share a value. *)
Lemma NoDup_kept_values {K V} (keep : K -> bool) (table : list (K * V)) :
  NoDup (map fst table) ->
  NoDup (map snd (filter (fun item => keep (fst item)) table)) <->
  (forall k1 k2 v,
     In (k1, v) table -> In (k2, v) table ->
     keep k1 = true -> keep k2 = true -> k1 = k2).
Proof.
  intros Hkeys. split.
  - intros Hnd k1 k2 v H1 H2 Hk1 Hk2.
    assert ((k1, v) = (k2, v)) as Heq; [|congruence].
    apply (NoDup_map_injective snd _ _ _ Hnd); [| |reflexivity];
      apply filter_In; split; assumption.
  - induction table as [|[k v] table IH]; intros Hone; [constructor|].
    inversion Hkeys as [|? ? Hnotin Hrest]; subst.
    assert (NoDup (map snd (filter (fun item => keep (fst item)) table))) as Htail.
    { apply IH; [exact Hrest|].
      intros k1 k2 v' H1 H2. apply (Hone k1 k2 v'); right; assumption. }
    cbn [filter fst]. destruct (keep k) eqn:Hk; [|exact Htail].
    cbn [map snd]. constructor; [|exact Htail].
    intros Hin. apply in_map_iff in Hin. destruct Hin as ([k2 v2] & Hv & Hin).
    cbn in Hv. subst v2. apply filter_In in Hin. destruct Hin as [Hin Hk2].
    assert (k = k2) as <-.
    { apply (Hone k k2 v); [left; reflexivity | right; exact Hin | exact Hk | exact Hk2]. }
    apply Hnotin. change k with (fst (k, v)). apply in_map. exact Hin.
Qed.

Lemma package_files_keys_distinct : NoDup (PyDict.keys package_files).
Proof.
  cbn. repeat (constructor; [cbn; intuition discriminate|]). constructor.
Qed.

(** C1, as stated, fails: with [requirements.txt] and [Pipfile] both at
    the root the tag "python" is appended twice. *)
Lemma two_python_markers_duplicate_language :
  exists st,
    analyze_repository two_python_markers_repo = Return st /\
    languages (fst st) = ["python"; "python"] /\
    ~ NoDup (languages (fst st)).
Proof.
  eexists. split; [reflexivity|]. split; [reflexivity|].
  cbn. intros H. inversion H as [|? ? Hnotin _]. apply Hnotin. left. reflexivity.
Qed.

(** C1, amended: [languages] holds the tag of every marker file present
    at the root, in table order, one tag per file; it is free of
    duplicates exactly when no two of the present marker files map to
    the same language. *)
Theorem languages_follow_present_markers (r : repository) (st : state) :
  analyze_repository r = Return st ->
  languages (fst st) = map snd (present_probes r) /\
  (NoDup (languages (fst st)) <-> one_file_per_language r).
Proof.
  intros H. apply analyze_repository_returns in H. destruct H as [_ ->].
  cbn [fst derived_analysis languages]. split; [reflexivity|].
  apply (NoDup_kept_values (has_file r) package_files).
  apply package_files_keys_distinct.
Qed.

Lemma languages_follow_present_markers_witness :
  exists st,
    analyze_repository fastapi_repo = Return st /\
    languages (fst st) = ["python"].
Proof.
  eexists. split; [reflexivity|].
  apply (proj1 (languages_follow_present_markers fastapi_repo _ eq_refl)).
Defined.

Lemma fold_left_absent {A} (step : state -> A -> state) (items : list A)
  (st : state) :
  (forall s a, In a items -> step s a = s) ->
  fold_left step items st = st.
Proof.
  induction items as [|a items IH]; intros Hstep; [reflexivity|].
  cbn [fold_left]. rewrite Hstep by (left; reflexivity).
  apply IH. intros s a' Hin. apply Hstep. right. exact Hin.
Qed.

(** C7: an existing directory with none of the marker files yields the
    initial profile: no languages, no entry points, not a web
    application, port 3000; nothing is raised. *)
Theorem unrecognized_repository_profile (r : repository) :
  path_exists r = true ->
  (forall f, In f (PyDict.keys package_files ++ common_files)%list ->
             has_file r f = false) ->
  exists a w,
    analyze_repository r = Return (a, w) /\
    languages a = [] /\ entry_points a = [] /\
    is_web_app a = false /\ default_port a = 3000%Z.
Proof.
  intros Hexists Hnone. exists initial_analysis, [].
  split; [|repeat split].
  unfold analyze_repository. rewrite Hexists. cbn [negb]. f_equal.
  unfold probe_common_files, probe_package_files.
  rewrite (fold_left_absent (probe_package_file r) package_files).
  - apply fold_left_absent. intros s f Hin.
    unfold probe_common_file. rewrite Hnone; [reflexivity|].
    apply in_or_app. right. exact Hin.
  - intros s [f lang] Hin.
    unfold probe_package_file. rewrite Hnone; [reflexivity|].
    apply in_or_app. left. change f with (fst (f, lang)).
    apply in_map. exact Hin.
Qed.

Lemma unrecognized_repository_profile_witness :
  exists a w,
    analyze_repository empty_repo = Return (a, w) /\
    languages a = [] /\ entry_points a = [] /\
    is_web_app a = false /\ default_port a = 3000%Z.
Proof.
  apply (unrecognized_repository_profile empty_repo).
  - reflexivity.
  - intros f _. reflexivity.
Defined.

(** C9: the function raises [FileNotFoundError] exactly when the path
    does not exist; in that case there is no profile, and for an
    existing path there always is one. *)
Theorem not_found_iff_path_missing (r : repository) :
  (analyze_repository r = Raise FileNotFoundError <-> path_exists r = false) /\
  (path_exists r = false -> forall st, analyze_repository r <> Return st) /\
  (path_exists r = true -> exists st, analyze_repository r = Return st).
Proof.
  unfold analyze_repository.
  destruct (path_exists r); cbn [negb]; repeat split;
    try discriminate; try reflexivity.
  intros _. eexists. reflexivity.
Qed.

Lemma not_found_iff_path_missing_witness :
  analyze_repository missing_repo = Raise FileNotFoundError /\
  exists st, analyze_repository empty_repo = Return st.
Proof.
  split.
  - apply (proj1 (not_found_iff_path_missing missing_repo)). reflexivity.
  - apply (proj2 (proj2 (not_found_iff_path_missing empty_repo))). reflexivity.
Defined.

End Profile.

(* ================================================================== *)
(** ** Web-application derivation and malformed manifests *)
(* ================================================================== *)

Section WebApp.

Variable r : repository.

Lemma node_framework_verdict :
  names_node_framework r -> web (node_verdict r) = true.
Proof.
  intros (Hfile & members & deps & fw & Hpkg & Hget & Hfw & Hkey).
  unfold node_verdict. rewrite Hfile, Hpkg.
  unfold summarize_package, PyDict.get_default. rewrite Hget.
  cbn [web node_dependencies]. unfold node_is_web.
  apply existsb_exists. exists fw. split; [exact Hfw|].
  apply mem_In. exact Hkey.
Qed.

Lemma python_framework_verdict (text : string) :
  names_python_framework r text ->
  python_verdict r
  = {| entry := Some (requirement_names text); web := true; raised := false |}.
Proof.
  intros (Hfile & Hreq & name & Hname & Hfw).
  unfold python_verdict. rewrite Hfile, Hreq. f_equal.
  unfold python_is_web. apply existsb_exists.
  exists (PyStr.lower name). split; [exact Hfw|].
  assert (PyStr.lower (PyStr.lower name) = PyStr.lower name) as ->.
  { cbn in Hfw.
    repeat (destruct Hfw as [<-|Hfw]; [reflexivity|]). contradiction. }
  apply mem_In. apply in_map. exact Hname.
Qed.

Lemma python_port_fastapi (text : string) :
  lists_fastapi text -> python_port (requirement_names text) = 8000%Z.
Proof.
  intros (name & Hname & Hlower). unfold python_port.
  assert (PyStr.mem "fastapi" (map PyStr.lower (requirement_names text)) = true)
    as ->; [|reflexivity].
  apply mem_In. rewrite <- Hlower. apply in_map. exact Hname.
Qed.

Lemma python_port_other (text : string) :
  ~ lists_fastapi text -> python_port (requirement_names text) = 5000%Z.
Proof.
  intros Hnot. unfold python_port.
  destruct (PyStr.mem "fastapi" (map PyStr.lower (requirement_names text)))
    eqn:Hmem; [|reflexivity].
  exfalso. apply Hnot. apply mem_In in Hmem. apply in_map_iff in Hmem.
  destruct Hmem as (name & Hlower & Hname). exists name. split; assumption.
Qed.

Lemma no_python_match_port : no_python_match r -> derived_port r = 3000%Z.
Proof.
  unfold derived_port, python_verdict.
  intros [Hfile | [Hraised | (text & Hreq & Hweb)]].
  - rewrite Hfile. reflexivity.
  - rewrite Hraised. destruct (has_file r "requirements.txt"); reflexivity.
  - rewrite Hreq. destruct (has_file r "requirements.txt"); [|reflexivity].
    cbn [entry web]. rewrite Hweb. reflexivity.
Qed.

Lemma python_match_port (text : string) :
  names_python_framework r text ->
  derived_port r = python_port (requirement_names text).
Proof.
  intros H. unfold derived_port. rewrite (python_framework_verdict text H).
  reflexivity.
Qed.

Lemma package_json_fails_verdict :
  package_json_fails r -> node_verdict r = failed_verdict.
Proof.
  intros [Hfile Hfail]. unfold node_verdict. rewrite Hfile.
  destruct (package_json r) as [|pkg_json]; [reflexivity|].
  rewrite Hfail. reflexivity.
Qed.

Lemma requirements_fail_verdict :
  requirements_fail r -> python_verdict r = failed_verdict.
Proof.
  intros [Hfile Hfail]. unfold python_verdict. rewrite Hfile, Hfail.
  reflexivity.
Qed.

Lemma derived_presence_recorded : presence_recorded r (derived_analysis r).
Proof. repeat split. Qed.

End WebApp.

Section WebAppClaims.

(** C6, as stated, fails: [package.json] lists express, yet the port is
    not 3000, because [requirements.txt] lists flask and is handled
    later. *)
Lemma express_with_flask_gets_python_port :
  names_node_framework express_and_flask_repo /\
  exists st,
    analyze_repository express_and_flask_repo = Return st /\
    is_web_app (fst st) = true /\
    default_port (fst st) = 5000%Z /\
    default_port (fst st) <> 3000%Z.
Proof.
  split.
  - split; [reflexivity|].
    exists [("name", JString "shop");
            ("dependencies", JObject [("express", JString "^4")])],
           [("express", JString "^4")], "express".
    repeat split; left; reflexivity.
  - eexists. split; [reflexivity|]. repeat split. discriminate.
Qed.

(** C6, amended: a [package.json] whose [dependencies] object has a key
    on the Node allow-list gives [is_web_app = true], and
    [default_port = 3000] provided [requirements.txt] is absent, cannot
    be read or names no Python web framework; a [requirements.txt] with
    a name that is, lower-cased, on the Python allow-list gives
    [is_web_app = true] with port 8000 when fastapi is among the names
    and 5000 otherwise. *)
Theorem web_app_derivation (r : repository) (st : state) :
  analyze_repository r = Return st ->
  (names_node_framework r ->
   is_web_app (fst st) = true /\
   (no_python_match r -> default_port (fst st) = 3000%Z)) /\
  (forall text,
     names_python_framework r text ->
     is_web_app (fst st) = true /\
     (lists_fastapi text -> default_port (fst st) = 8000%Z) /\
     (~ lists_fastapi text -> default_port (fst st) = 5000%Z)).
Proof.
  intros H. apply analyze_repository_returns in H. destruct H as [_ ->].
  cbn [fst derived_analysis is_web_app default_port]. split.
  - intros Hnode. rewrite (node_framework_verdict r Hnode). split; [reflexivity|].
    apply no_python_match_port.
  - intros text Hpy.
    rewrite (python_match_port r text Hpy), (python_framework_verdict r text Hpy).
    cbn [web]. split; [apply orb_true_r|]. split.
    + apply python_port_fastapi.
    + apply python_port_other.
Qed.

Lemma express_repo_names_node_framework (names : list string)
  (reqs : outcome string) :
  PyStr.mem "package.json" names = true ->
  names_node_framework (repo_with names (Returned express_manifest) reqs).
Proof.
  intros Hfile. split; [exact Hfile|].
  exists [("name", JString "shop");
          ("dependencies", JObject [("express", JString "^4")])],
         [("express", JString "^4")], "express".
  repeat split; left; reflexivity.
Qed.

Lemma flask_not_fastapi : ~ lists_fastapi ("flask==2.0" ++ nl).
Proof.
  intros (name & Hname & Hlower). cbn in Hname.
  destruct Hname as [<-|[]]. discriminate Hlower.
Qed.

Lemma web_app_derivation_witness :
  (exists st, analyze_repository express_repo = Return st /\
              is_web_app (fst st) = true /\ default_port (fst st) = 3000%Z) /\
  (exists st, analyze_repository fastapi_repo = Return st /\
              is_web_app (fst st) = true /\ default_port (fst st) = 8000%Z) /\
  (exists st, analyze_repository flask_repo = Return st /\
              is_web_app (fst st) = true /\ default_port (fst st) = 5000%Z).
Proof.
  split; [|split].
  - eexists. split; [reflexivity|].
    destruct (proj1 (web_app_derivation express_repo _ eq_refl)) as [Hweb Hport].
    + apply express_repo_names_node_framework. reflexivity.
    + split; [exact Hweb|]. apply Hport. left. reflexivity.
  - eexists. split; [reflexivity|].
    destruct (proj2 (web_app_derivation fastapi_repo _ eq_refl)
                    ("# api" ++ nl ++ "FastAPI==0.100.0" ++ nl ++ "uvicorn" ++ nl))
      as (Hweb & Hfast & _).
    + split; [reflexivity|]. split; [reflexivity|].
      exists "FastAPI". split; [left; reflexivity | right; right; left; reflexivity].
    + split; [exact Hweb|]. apply Hfast.
      exists "FastAPI". split; [left; reflexivity | reflexivity].
  - eexists. split; [reflexivity|].
    destruct (proj2 (web_app_derivation flask_repo _ eq_refl) ("flask==2.0" ++ nl))
      as (Hweb & _ & Hother).
    + split; [reflexivity|]. split; [reflexivity|].
      exists "flask". split; left; reflexivity.
    + split; [exact Hweb|]. apply Hother. apply flask_not_fastapi.
Defined.

(** C10: when [package.json] names a Node web framework and
    [requirements.txt] names a Python one, the profile is a web
    application whose port is the Python value, 8000 with fastapi among
    the names and 5000 without: [requirements.txt] comes second in the
    probe table and its assignment is the last one. *)
Theorem python_port_wins_over_node (r : repository) (st : state)
  (text : string) :
  analyze_repository r = Return st ->
  names_node_framework r ->
  names_python_framework r text ->
  is_web_app (fst st) = true /\
  (lists_fastapi text -> default_port (fst st) = 8000%Z) /\
  (~ lists_fastapi text -> default_port (fst st) = 5000%Z).
Proof.
  intros H Hnode Hpy. apply analyze_repository_returns in H. destruct H as [_ ->].
  cbn [fst derived_analysis is_web_app default_port].
  rewrite (node_framework_verdict r Hnode), (python_match_port r text Hpy).
  split; [reflexivity|]. split.
  - apply python_port_fastapi.
  - apply python_port_other.
Qed.

Lemma python_port_wins_over_node_witness :
  exists st,
    analyze_repository express_and_flask_repo = Return st /\
    is_web_app (fst st) = true /\ default_port (fst st) = 5000%Z.
Proof.
  eexists. split; [reflexivity|].
  destruct (python_port_wins_over_node express_and_flask_repo _
              ("flask==2.0" ++ nl) eq_refl) as (Hweb & _ & Hother).
  - apply express_repo_names_node_framework. reflexivity.
  - split; [reflexivity|]. split; [reflexivity|].
    exists "flask". split; left; reflexivity.
  - split; [exact Hweb|]. apply Hother. apply flask_not_fastapi.
Defined.

(** C8: when the [try] block of a manifest that is present raises, the
    function still returns a profile; a warning for that manifest is
    printed, its entry is missing from [dependencies], and everything
    else is as the other files determine it: languages, package
    managers, structure and entry points from file presence, the other
    ecosystem's entry, web flag and port from the other manifest. *)
Theorem malformed_manifest_is_not_fatal (r : repository) :
  path_exists r = true ->
  (package_json_fails r ->
   exists a w,
     analyze_repository r = Return (a, w) /\
     In WarnPackageJson w /\
     dep_node (dependencies a) = None /\
     presence_recorded r a /\
     dep_python (dependencies a) = entry (python_verdict r) /\
     is_web_app a = web (python_verdict r) /\
     default_port a = derived_port r) /\
  (requirements_fail r ->
   exists a w,
     analyze_repository r = Return (a, w) /\
     In WarnRequirements w /\
     dep_python (dependencies a) = None /\
     presence_recorded r a /\
     dep_node (dependencies a) = entry (node_verdict r) /\
     is_web_app a = web (node_verdict r) /\
     default_port a = 3000%Z).
Proof.
  intros Hexists. split; intros Hfail;
    exists (derived_analysis r), (derived_warnings r);
    (split; [apply analyze_repository_closed_form; exact Hexists|]).
  - pose proof (package_json_fails_verdict r Hfail) as Hv.
    unfold derived_warnings.
    cbn [derived_analysis dependencies dep_node dep_python is_web_app default_port].
    rewrite Hv. cbn [raised entry web orb].
    split; [left; reflexivity|]. repeat split.
  - pose proof (requirements_fail_verdict r Hfail) as Hv.
    cbn [derived_analysis dependencies dep_node dep_python is_web_app default_port].
    unfold derived_warnings, derived_port.
    rewrite Hv. cbn [raised entry web].
    split; [apply in_or_app; right; left; reflexivity|].
    repeat split. apply orb_false_r.
Qed.

Lemma malformed_manifest_is_not_fatal_witness :
  (exists a w,
     analyze_repository broken_package_repo = Return (a, w) /\
     In WarnPackageJson w /\ dep_node (dependencies a) = None /\
     languages a = ["node"; "python"] /\ default_port a = 5000%Z) /\
  (exists a w,
     analyze_repository broken_requirements_repo = Return (a, w) /\
     In WarnRequirements w /\ dep_python (dependencies a) = None /\
     languages a = ["node"; "python"; "go"] /\ default_port a = 3000%Z).
Proof.
  split.
  - destruct (proj1 (malformed_manifest_is_not_fatal broken_package_repo eq_refl))
      as (a & w & Hret & Hwarn & Hnode & (Hlang & _) & _ & _ & Hport).
    + split; [reflexivity | exact I].
    + exists a, w. repeat split; assumption.
  - destruct (proj2 (malformed_manifest_is_not_fatal broken_requirements_repo eq_refl))
      as (a & w & Hret & Hwarn & Hpy & (Hlang & _) & _ & _ & Hport).
    + split; reflexivity.
    + exists a, w. repeat split; assumption.
Defined.

End WebAppClaims.

(* ================================================================== *)
(** ** Substrings, trimming and lines *)
(* ================================================================== *)

Section Substrings.

Lemma prefix_app_l (p a b : string) :
  prefix p a = true -> prefix p (a ++ b) = true.
Proof.
  revert a; induction p as [|c p IH]; intros a H; [apply prefix_empty|].
  destruct a as [|d a]; [discriminate H|].
  cbn [append]. rewrite prefix_cons in *.
  destruct (ascii_dec c d); [apply IH; exact H | discriminate H].
Qed.

Lemma contains_nil (sub : string) :
  PyStr.contains sub EmptyString = prefix sub EmptyString.
Proof. cbn [PyStr.contains]. apply orb_false_r. Qed.

(** A text without [sub] has no prefix with [sub]. *)
Lemma contains_app_l (sub a b : string) :
  PyStr.contains sub (a ++ b) = false -> PyStr.contains sub a = false.
Proof.
  induction a as [|c a IH]; intros H.
  - rewrite contains_nil.
    destruct (prefix sub EmptyString) eqn:E; [|reflexivity].
    apply (prefix_app_l sub EmptyString b) in E. cbn [append] in *.
    destruct b; cbn [PyStr.contains] in H; apply orb_false_iff in H;
      destruct H as [H _]; congruence.
  - cbn [append] in H. apply contains_cons in H. destruct H as [Hp Hs].
    cbn [PyStr.contains]. rewrite (IH Hs), orb_false_r.
    destruct (prefix sub (String c a)) eqn:E; [|reflexivity].
    apply (prefix_app_l sub (String c a) b) in E. cbn [append] in E. congruence.
Qed.

(** A text without [sub] has no suffix with [sub]. *)
Lemma contains_app_r (sub a b : string) :
  PyStr.contains sub (a ++ b) = false -> PyStr.contains sub b = false.
Proof.
  induction a as [|c a IH]; intros H; [exact H|].
  cbn [append] in H. apply contains_cons in H. apply IH. apply H.
Qed.

Lemma lstrip_suffix (s : string) : exists blanks, s = blanks ++ PyStr.lstrip s.
Proof.
  induction s as [|c s (blanks & IH)]; [exists EmptyString; reflexivity|].
  cbn [PyStr.lstrip]. destruct (PyStr.is_space c).
  - exists (String c blanks). cbn [append]. rewrite <- IH. reflexivity.
  - exists EmptyString. reflexivity.
Qed.

Lemma rstrip_prefix (s : string) : exists blanks, s = PyStr.rstrip s ++ blanks.
Proof.
  induction s as [|c s (blanks & IH)]; [exists EmptyString; reflexivity|].
  cbn [PyStr.rstrip]. destruct (PyStr.rstrip s) as [|d t] eqn:E.
  - destruct (PyStr.is_space c).
    + exists (String c s). reflexivity.
    + exists s. reflexivity.
  - exists blanks. cbn [append] in *. f_equal. exact IH.
Qed.

(** Trimming cannot bring a substring into being. *)
Lemma contains_strip (sub s : string) :
  PyStr.contains sub s = false -> PyStr.contains sub (PyStr.strip s) = false.
Proof.
  intros H. unfold PyStr.strip.
  destruct (lstrip_suffix s) as [b1 H1].
  destruct (rstrip_prefix (PyStr.lstrip s)) as [b2 H2].
  rewrite H1 in H. apply contains_app_r in H.
  rewrite H2 in H. apply contains_app_l in H. exact H.
Qed.

Lemma rstrip_cons (c : ascii) (s : string) :
  PyStr.rstrip (String c s)
  = match PyStr.rstrip s with
    | EmptyString =>
        if PyStr.is_space c then EmptyString else String c EmptyString
    | r => String c r
    end.
Proof. reflexivity. Qed.

Lemma rstrip_idempotent (s : string) :
  PyStr.rstrip (PyStr.rstrip s) = PyStr.rstrip s.
Proof.
  induction s as [|c s IH]; [reflexivity|].
  rewrite rstrip_cons. destruct (PyStr.rstrip s) as [|d t] eqn:E.
  - destruct (PyStr.is_space c) eqn:Hc; [reflexivity|].
    rewrite rstrip_cons. cbn [PyStr.rstrip]. rewrite Hc. reflexivity.
  - rewrite rstrip_cons, IH. reflexivity.
Qed.

Lemma lstrip_head (s : string) :
  PyStr.lstrip s = EmptyString \/
  exists c t, PyStr.lstrip s = String c t /\ PyStr.is_space c = false.
Proof.
  induction s as [|c s IH]; [left; reflexivity|].
  cbn [PyStr.lstrip]. destruct (PyStr.is_space c) eqn:Hc; [exact IH|].
  right. exists c, s. split; [reflexivity | exact Hc].
Qed.

Lemma rstrip_keeps_head (c : ascii) (t : string) :
  PyStr.is_space c = false -> exists t', PyStr.rstrip (String c t) = String c t'.
Proof.
  intros Hc. cbn [PyStr.rstrip]. destruct (PyStr.rstrip t) as [|d u].
  - rewrite Hc. exists EmptyString. reflexivity.
  - exists (String d u). reflexivity.
Qed.

(** [strip] is idempotent. *)
Lemma strip_idempotent (s : string) :
  PyStr.strip (PyStr.strip s) = PyStr.strip s.
Proof.
  unfold PyStr.strip.
  destruct (lstrip_head s) as [->|(c & t & -> & Hc)]; [reflexivity|].
  destruct (rstrip_keeps_head c t Hc) as [t' Ht'].
  rewrite Ht'. cbn [PyStr.lstrip]. rewrite Hc. rewrite <- Ht'.
  apply rstrip_idempotent.
Qed.

End Substrings.

Section Lines.

Lemma split_nl_cons (c : ascii) (s : string) :
  PyStr.split (String c s) nl
  = if Ascii.eqb c "010"%char
    then EmptyString :: PyStr.split s nl
    else PyStr.push_char c (PyStr.split s nl).
Proof.
  unfold PyStr.split, nl. cbn [PyStr.split_from].
  rewrite prefix_cons, prefix_empty.
  destruct (ascii_dec "010" c) as [<-|Hne]; [reflexivity|].
  destruct (Ascii.eqb_spec c "010"); [congruence | reflexivity].
Qed.

Lemma contains_nl_cons (c : ascii) (s : string) :
  PyStr.contains nl (String c s)
  = Ascii.eqb c "010"%char || PyStr.contains nl s.
Proof.
  cbn [PyStr.contains]. unfold nl at 1. rewrite prefix_cons, prefix_empty.
  destruct (ascii_dec "010" c) as [<-|Hne]; [reflexivity|].
  destruct (Ascii.eqb_spec c "010"); [congruence | reflexivity].
Qed.

(** No piece of a split on the newline holds a newline. *)
Lemma split_lines_no_newline (s : string) :
  Forall (fun line => PyStr.contains nl line = false) (PyStr.split s nl).
Proof.
  induction s as [|c s IH]; [repeat constructor|].
  rewrite split_nl_cons. destruct (Ascii.eqb c "010") eqn:Hc.
  - constructor; [reflexivity | exact IH].
  - destruct (PyStr.split s nl) as [|p ps]; cbn [PyStr.push_char].
    + repeat constructor. rewrite contains_nl_cons, Hc. reflexivity.
    + inversion IH as [|? ? Hp Hps]; subst. constructor; [|exact Hps].
      rewrite contains_nl_cons, Hc, Hp. reflexivity.
Qed.

Lemma split_no_newline (p : string) :
  PyStr.contains nl p = false -> PyStr.split p nl = [p].
Proof.
  induction p as [|c p IH]; intros H; [reflexivity|].
  rewrite contains_nl_cons in H. apply orb_false_iff in H. destruct H as [Hc Hp].
  rewrite split_nl_cons, Hc, (IH Hp). reflexivity.
Qed.

Lemma split_app_nl (p rest : string) :
  PyStr.contains nl p = false ->
  PyStr.split (p ++ nl ++ rest) nl = p :: PyStr.split rest nl.
Proof.
  induction p as [|c p IH]; intros H.
  - cbn [append]. unfold nl at 1. cbn [append]. rewrite split_nl_cons. reflexivity.
  - rewrite contains_nl_cons in H. apply orb_false_iff in H. destruct H as [Hc Hp].
    cbn [append]. rewrite split_nl_cons, Hc, (IH Hp). reflexivity.
Qed.

(** Joining lines and splitting again gives the lines back. *)
Lemma split_join_nl (lines : list string) :
  lines <> [] ->
  Forall (fun line => PyStr.contains nl line = false) lines ->
  PyStr.split (PyStr.join nl lines) nl = lines.
Proof.
  induction lines as [|p lines IH]; intros Hne Hall; [congruence|].
  inversion Hall as [|? ? Hp Hrest]; subst.
  destruct lines as [|q lines].
  - cbn [PyStr.join]. apply split_no_newline. exact Hp.
  - rewrite join_cons by discriminate.
    rewrite (split_app_nl p _ Hp). rewrite IH; [reflexivity | discriminate | exact Hrest].
Qed.

(** The lines of a text without [sub] are without [sub]. *)
Lemma contains_join_inv (sub : string) (lines : list string) :
  PyStr.contains sub (PyStr.join nl lines) = false ->
  lines <> [] ->
  Forall (fun line => PyStr.contains sub line = false) lines.
Proof.
  induction lines as [|p lines IH]; intros H Hne; [congruence|].
  destruct lines as [|q lines].
  - cbn [PyStr.join] in H. repeat constructor. exact H.
  - rewrite join_cons in H by discriminate. constructor.
    + apply (contains_app_l _ _ _ H).
    + apply IH; [|discriminate].
      apply contains_app_r in H. apply contains_app_r in H. exact H.
Qed.

Lemma contains_split (sub s : string) :
  PyStr.contains sub s = false ->
  Forall (fun line => PyStr.contains sub line = false) (PyStr.split s nl).
Proof.
  intros H. apply contains_join_inv; [|apply split_nonempty].
  rewrite join_split_nl. exact H.
Qed.

(** A triple backtick cannot straddle a line end. *)
Lemma fence_prefix_before_nl (p rest : string) :
  prefix "```" (p ++ nl ++ rest) = true -> prefix "```" p = true.
Proof.
  destruct p as [|a [|b [|c p]]]; cbn [append]; unfold nl;
    repeat rewrite prefix_cons;
    repeat match goal with
           | |- context [ascii_dec ?x ?y] => destruct (ascii_dec x y); subst
           end;
    cbn [append]; try rewrite !prefix_cons; try rewrite !prefix_empty;
    try discriminate; try reflexivity;
    repeat match goal with
           | |- context [ascii_dec ?x ?y] => destruct (ascii_dec x y); subst
           end; try discriminate; try reflexivity.
Qed.

Lemma fence_free_app_nl (p rest : string) :
  PyStr.contains "```" p = false -> PyStr.contains "```" rest = false ->
  PyStr.contains "```" (p ++ nl ++ rest) = false.
Proof.
  induction p as [|c p IH]; intros Hp Hrest.
  - cbn [append]. unfold nl. cbn [append PyStr.contains].
    rewrite Hrest, prefix_cons.
    destruct (ascii_dec "`" "010"); [discriminate|]. reflexivity.
  - apply contains_cons in Hp. destruct Hp as [Hpre Hp].
    cbn [append PyStr.contains]. rewrite (IH Hp Hrest), orb_false_r.
    destruct (prefix "```" (String c (p ++ nl ++ rest))) eqn:E; [|reflexivity].
    apply (fence_prefix_before_nl (String c p) rest) in E. congruence.
Qed.

Lemma fence_free_join (lines : list string) :
  Forall (fun line => PyStr.contains "```" line = false) lines ->
  PyStr.contains "```" (PyStr.join nl lines) = false.
Proof.
  induction lines as [|p lines IH]; intros H; [reflexivity|].
  inversion H as [|? ? Hp Hrest]; subst.
  destruct lines as [|q lines]; [exact Hp|].
  rewrite join_cons by discriminate.
  apply fence_free_app_nl; [exact Hp | apply IH; exact Hrest].
Qed.

End Lines.

(* ================================================================== *)
(** ** What container-file recovery returns *)
(* ================================================================== *)

Section DockerfileOutput.

Variable response : string.

Let kept : list string :=
  dockerfile_lines (PyStr.split (strip_dockerfile_fences response) nl).

Lemma kept_dockerfile_line (line : string) :
  In line kept ->
  tidy_line line /\
  PyStr.contains nl line = false /\
  PyStr.contains "```" line = false.
Proof.
  unfold kept. rewrite dockerfile_lines_filter. intros Hin.
  apply filter_In in Hin. destruct Hin as [Hin Hkeep].
  apply in_map_iff in Hin. destruct Hin as (raw & <- & Hraw).
  unfold keep_dockerfile_line in Hkeep.
  apply andb_true_iff in Hkeep. destruct Hkeep as [Hkeep Hthis].
  apply andb_true_iff in Hkeep. destruct Hkeep as [Hne Hhere].
  apply negb_true_iff in Hne, Hhere, Hthis.
  repeat split.
  - intros Heq. rewrite Heq in Hne. discriminate Hne.
  - apply strip_idempotent.
  - exact Hhere.
  - exact Hthis.
  - apply contains_strip.
    pose proof (split_lines_no_newline (strip_dockerfile_fences response)) as H.
    rewrite Forall_forall in H. apply H. exact Hraw.
  - apply contains_strip.
    pose proof (contains_split "```" _ (strip_dockerfile_fences_fence_free response))
      as H.
    rewrite Forall_forall in H. apply H. exact Hraw.
Qed.

Lemma kept_dockerfile_lines_split :
  kept <> [] -> PyStr.split (_clean_dockerfile_response response) nl = kept.
Proof.
  intros Hne. unfold _clean_dockerfile_response. fold kept.
  apply split_join_nl; [exact Hne|].
  apply Forall_forall. intros line Hin. apply (kept_dockerfile_line line Hin).
Qed.

Lemma clean_dockerfile_empty_or_kept :
  (kept = [] /\ _clean_dockerfile_response response = EmptyString) \/
  (kept <> [] /\ PyStr.split (_clean_dockerfile_response response) nl = kept).
Proof.
  destruct kept as [|line rest] eqn:E.
  - left. split; [reflexivity|].
    unfold _clean_dockerfile_response. fold kept. rewrite E. reflexivity.
  - right. split; [discriminate|]. rewrite <- E.
    apply kept_dockerfile_lines_split. rewrite E. discriminate.
Qed.

Lemma dockerfile_result_lines :
  _clean_dockerfile_response response = EmptyString \/
  Forall tidy_line (PyStr.split (_clean_dockerfile_response response) nl).
Proof.
  destruct clean_dockerfile_empty_or_kept as [[_ Hempty]|[_ Hsplit]];
    [left; exact Hempty|].
  right. rewrite Hsplit. apply Forall_forall.
  intros line Hin. apply (kept_dockerfile_line line Hin).
Qed.

Lemma dockerfile_result_fence_free :
  fence_free (_clean_dockerfile_response response).
Proof.
  unfold fence_free, _clean_dockerfile_response. fold kept.
  apply fence_free_join. apply Forall_forall.
  intros line Hin. apply (kept_dockerfile_line line Hin).
Qed.

Lemma dockerfile_result_fixed :
  _clean_dockerfile_response (_clean_dockerfile_response response)
  = _clean_dockerfile_response response.
Proof.
  destruct clean_dockerfile_empty_or_kept as [[_ Hempty]|[Hne Hsplit]].
  - rewrite Hempty. reflexivity.
  - unfold _clean_dockerfile_response at 1.
    rewrite (strip_dockerfile_fences_absent _ dockerfile_result_fence_free), Hsplit.
    rewrite dockerfile_lines_fixed.
    + unfold _clean_dockerfile_response. reflexivity.
    + apply Forall_forall. intros line Hin.
      destruct (kept_dockerfile_line line Hin) as [(_ & _ & Hhere & Hthis) _].
      split; assumption.
    + apply Forall_forall. intros line Hin.
      destruct (kept_dockerfile_line line Hin) as [(Hnonempty & Hstrip & _) _].
      split; assumption.
Qed.

(** X1: Whatever the response, a non-empty result consists of lines that
    are not empty, carry no blanks at either end and do not begin with
    "Here" or "This". *)
Theorem clean_dockerfile_output_lines :
  _clean_dockerfile_response response = EmptyString \/
  Forall tidy_line (PyStr.split (_clean_dockerfile_response response) nl).
Proof. exact dockerfile_result_lines. Qed.

(** X2: Whatever the response, the result holds no triple backtick. *)
Theorem clean_dockerfile_output_fence_free :
  fence_free (_clean_dockerfile_response response).
Proof. exact dockerfile_result_fence_free. Qed.

(** X3: Container-file recovery is idempotent: cleaning a cleaned response
    changes nothing. *)
Theorem clean_dockerfile_idempotent :
  _clean_dockerfile_response (_clean_dockerfile_response response)
  = _clean_dockerfile_response response.
Proof. exact dockerfile_result_fixed. Qed.

(** X4: The replace of the [docker]-tagged fence comes after the replace of
    the plain fence and never changes the text: dropping it gives the
    same function. *)
Theorem docker_fence_replace_never_fires :
  strip_dockerfile_fences response
  = PyStr.replace (PyStr.replace response "```dockerfile" "") "```" "".
Proof. apply docker_tag_replace_is_dead. Qed.

End DockerfileOutput.

(* ================================================================== *)
(** ** What orchestration-bundle recovery returns *)
(* ================================================================== *)

Section K8sOutput.

Lemma string_app_assoc (a b c : string) : (a ++ b) ++ c = a ++ (b ++ c).
Proof.
  induction a as [|x a IH]; cbn [append]; [reflexivity | f_equal; exact IH].
Qed.

Lemma join_app (front back : list string) :
  front <> [] -> back <> [] ->
  PyStr.join nl (front ++ back)%list
  = PyStr.join nl front ++ nl ++ PyStr.join nl back.
Proof.
  induction front as [|p front IH]; intros Hf Hb; [congruence|].
  destruct front as [|q front].
  - cbn [app]. apply join_cons. exact Hb.
  - change ((p :: q :: front) ++ back)%list with (p :: ((q :: front) ++ back))%list.
    rewrite join_cons by discriminate.
    rewrite IH by (discriminate || exact Hb).
    rewrite (join_cons nl p (q :: front)) by discriminate.
    rewrite !string_app_assoc. reflexivity.
Qed.

Lemma strip_k8s_fences_fence_free (response : string) :
  fence_free (strip_k8s_fences response).
Proof. unfold fence_free, strip_k8s_fences. apply replace_plain_fence_clean. Qed.

Lemma strip_k8s_fences_absent (text : string) :
  fence_free text -> strip_k8s_fences text = text.
Proof.
  unfold fence_free, strip_k8s_fences. intros H.
  rewrite (replace_absent "```yaml" "" text)
    by apply (contains_longer "```" "yaml" text H).
  rewrite (replace_absent "```yml" "" text)
    by apply (contains_longer "```" "yml" text H).
  apply replace_absent. exact H.
Qed.

Variable response : string.

Let lines : list string := PyStr.split (strip_k8s_fences response) nl.
Let kept : list string := k8s_lines false lines.

Lemma k8s_kept_head :
  match kept with
  | [] => True
  | first :: _ => starts_yaml first = true
  end.
Proof.
  unfold kept. destruct (k8s_lines_seek lines) as (_ & _ & _ & H). exact H.
Qed.

Lemma k8s_kept_no_newline :
  Forall (fun line => PyStr.contains nl line = false) kept.
Proof.
  destruct (k8s_lines_seek lines) as (dropped & Hsplit & _ & _).
  pose proof (split_lines_no_newline (strip_k8s_fences response)) as H.
  fold lines in H. rewrite Hsplit in H.
  apply Forall_app in H. apply H.
Qed.

(** X5: Only whole leading lines are removed: the result is empty, or the
    fence-stripped response itself, or what follows one of its line
    ends. *)
Theorem clean_k8s_removes_leading_lines :
  _clean_k8s_response response = EmptyString \/
  strip_k8s_fences response = _clean_k8s_response response \/
  exists chatter,
    strip_k8s_fences response = chatter ++ nl ++ _clean_k8s_response response.
Proof.
  unfold _clean_k8s_response. fold lines. fold kept.
  destruct (k8s_lines_seek lines) as (dropped & Hsplit & _ & _).
  fold kept in Hsplit.
  destruct kept as [|first rest] eqn:Ek; [left; reflexivity|].
  right. rewrite <- (join_split_nl (strip_k8s_fences response)).
  fold lines. rewrite Hsplit.
  destruct dropped as [|d dropped]; [left; reflexivity|].
  right. exists (PyStr.join nl (d :: dropped)).
  apply join_app; discriminate.
Qed.

Lemma k8s_result_fence_free : fence_free (_clean_k8s_response response).
Proof.
  pose proof (strip_k8s_fences_fence_free response) as Hfree.
  unfold fence_free in *.
  unfold _clean_k8s_response. fold lines. fold kept.
  destruct (k8s_lines_seek lines) as (dropped & Hsplit & _ & _).
  fold kept in Hsplit.
  rewrite <- (join_split_nl (strip_k8s_fences response)) in Hfree.
  fold lines in Hfree. rewrite Hsplit in Hfree.
  destruct kept as [|first rest]; [reflexivity|].
  destruct dropped as [|d dropped]; [exact Hfree|].
  rewrite join_app in Hfree by discriminate.
  apply contains_app_r in Hfree. apply contains_app_r in Hfree. exact Hfree.
Qed.

Lemma k8s_result_first_line :
  _clean_k8s_response response = EmptyString \/
  starts_yaml (first_line (_clean_k8s_response response)) = true.
Proof.
  unfold _clean_k8s_response, first_line. fold lines. fold kept.
  pose proof k8s_kept_head as Hhead. pose proof k8s_kept_no_newline as Hnl.
  destruct kept as [|first rest]; [left; reflexivity|].
  right. rewrite split_join_nl by (discriminate || exact Hnl). exact Hhead.
Qed.

Lemma k8s_lines_from_yaml (first : string) (rest : list string) :
  starts_yaml first = true -> k8s_lines false (first :: rest) = first :: rest.
Proof.
  intros H. cbn [k8s_lines negb]. rewrite H, k8s_lines_started. reflexivity.
Qed.

(** X6: Whatever the response, the result holds no triple backtick. *)
Theorem clean_k8s_output_fence_free :
  fence_free (_clean_k8s_response response).
Proof. exact k8s_result_fence_free. Qed.

(** X7: A non-empty result begins with a line whose trimmed form starts
    with "apiVersion:" or "---". *)
Theorem clean_k8s_output_first_line :
  _clean_k8s_response response = EmptyString \/
  starts_yaml (first_line (_clean_k8s_response response)) = true.
Proof. exact k8s_result_first_line. Qed.

Lemma k8s_result_fixed :
  _clean_k8s_response (_clean_k8s_response response)
  = _clean_k8s_response response.
Proof.
  unfold _clean_k8s_response at 1.
  rewrite (strip_k8s_fences_absent _ k8s_result_fence_free).
  unfold _clean_k8s_response. fold lines. fold kept.
  pose proof k8s_kept_head as Hhead. pose proof k8s_kept_no_newline as Hnl.
  destruct kept as [|first rest]; [reflexivity|].
  rewrite split_join_nl by (discriminate || exact Hnl).
  rewrite (k8s_lines_from_yaml first rest Hhead). reflexivity.
Qed.

(** X8: Orchestration-bundle recovery is idempotent. *)
Theorem clean_k8s_idempotent :
  _clean_k8s_response (_clean_k8s_response response)
  = _clean_k8s_response response.
Proof. exact k8s_result_fixed. Qed.

End K8sOutput.

Section K8sIdentity.

(** X9: A text without fences whose first line already starts the YAML is
    returned as it is, trailing commentary included. *)
Theorem clean_k8s_keeps_plain_manifest (text : string) :
  fence_free text ->
  starts_yaml (first_line text) = true ->
  _clean_k8s_response text = text.
Proof.
  intros Hfree Hfirst. unfold _clean_k8s_response.
  rewrite (strip_k8s_fences_absent text Hfree).
  unfold first_line in Hfirst.
  pose proof (split_nonempty nl 0 text) as Hne. fold (PyStr.split text nl) in Hne.
  rewrite <- (join_split_nl text) at 2.
  destruct (PyStr.split text nl) as [|first rest]; [congruence|].
  cbn [hd] in Hfirst. rewrite (k8s_lines_from_yaml first rest Hfirst). reflexivity.
Qed.

Lemma clean_k8s_keeps_plain_manifest_witness :
  _clean_k8s_response plain_manifest = plain_manifest.
Proof.
  apply (clean_k8s_keeps_plain_manifest plain_manifest); reflexivity.
Defined.

End K8sIdentity.

(* ================================================================== *)
(** ** The files the manifest loop saves *)
(* ================================================================== *)

Section SavedManifests.

Lemma string_length_app (a b : string) :
  String.length (a ++ b) = String.length a + String.length b.
Proof.
  induction a as [|c a IH]; cbn [append String.length]; [reflexivity|].
  rewrite IH. reflexivity.
Qed.

Lemma string_app_inv_tail (a b tail : string) :
  a ++ tail = b ++ tail -> a = b.
Proof.
  revert b; induction a as [|c a IH]; intros b H.
  - destruct b as [|d b]; [reflexivity|].
    apply (f_equal String.length) in H.
    cbn [append String.length] in H. rewrite string_length_app in H. lia.
  - destruct b as [|d b].
    + apply (f_equal String.length) in H.
      cbn [append String.length] in H. rewrite string_length_app in H. lia.
    + cbn [append] in H. injection H as -> H. f_equal. apply IH. exact H.
Qed.

(** [str] of an index is injective. *)
Lemma of_nat_injective (i j : nat) : PyStr.of_nat i = PyStr.of_nat j -> i = j.
Proof.
  unfold PyStr.of_nat. intros H.
  apply (f_equal NilEmpty.uint_of_string) in H.
  rewrite !NilEmpty.usu in H. injection H as H.
  apply (f_equal Nat.of_uint) in H.
  rewrite !DecimalNat.Unsigned.of_to in H. exact H.
Qed.

Lemma classify_manifest_label (manifest : string) :
  In (classify_manifest manifest) manifest_labels.
Proof.
  unfold classify_manifest, manifest_labels.
  repeat match goal with
         | |- context [if ?b then _ else _] => destruct b
         end; cbn; tauto.
Qed.

Lemma filename_injective (f g : fragment) :
  In (manifest_type f) manifest_labels ->
  In (manifest_type g) manifest_labels ->
  fragment_filename f = fragment_filename g ->
  manifest_type f = manifest_type g /\ ordinal f = ordinal g.
Proof.
  destruct f as [cf tf i], g as [cg tg j].
  unfold fragment_filename. cbn [manifest_type ordinal manifest_labels In].
  intros Hf Hg H.
  repeat (destruct Hf as [<-|Hf]; [|]); try contradiction;
    repeat (destruct Hg as [<-|Hg]; [|]); try contradiction;
    cbn [append] in H; try discriminate H;
    (split; [reflexivity|]);
    injection H as H; apply string_app_inv_tail in H;
    apply of_nat_injective; exact H.
Qed.

Lemma save_manifests_labels (i : nat) (manifests : list string) :
  Forall (fun f => In (manifest_type f) manifest_labels)
         (save_manifests i manifests).
Proof.
  revert i; induction manifests as [|m rest IH]; intros i; [constructor|].
  cbn [save_manifests]. destruct (nonblank m); [|apply IH].
  constructor; [apply classify_manifest_label | apply IH].
Qed.

Lemma NoDup_map_coarser {A B C} (f : A -> B) (g : A -> C) (items : list A) :
  (forall x y, In x items -> In y items -> f x = f y -> g x = g y) ->
  NoDup (map g items) -> NoDup (map f items).
Proof.
  induction items as [|a items IH]; intros Hfg Hnd; [constructor|].
  inversion Hnd as [|? ? Hnotin Hrest]; subst.
  cbn [map]. constructor.
  - intros Hin. apply Hnotin. apply in_map_iff in Hin.
    destruct Hin as (x & Hx & Hin). apply in_map_iff. exists x.
    split; [|exact Hin]. apply Hfg; [right; exact Hin | left; reflexivity | exact Hx].
  - apply IH; [|exact Hrest]. intros x y Hx Hy. apply Hfg; right; assumption.
Qed.

(** X10: No two saved manifests get the same file name, so no fragment
    overwrites another. *)
Theorem saved_manifest_names_distinct (k8s_content : string) :
  NoDup (map fragment_filename (split_manifests k8s_content)).
Proof.
  unfold split_manifests.
  apply (NoDup_map_coarser fragment_filename ordinal).
  - intros f g Hf Hg Heq.
    pose proof (save_manifests_labels 0 (PyStr.split k8s_content "---")) as Hl.
    rewrite Forall_forall in Hl.
    apply (filename_injective f g (Hl f Hf) (Hl g Hg) Heq).
  - apply save_manifests_ordinals_nodup.
Qed.

Lemma save_manifests_sorted (i : nat) (manifests : list string) :
  StronglySorted lt (map ordinal (save_manifests i manifests)).
Proof.
  revert i; induction manifests as [|m rest IH]; intros i; [constructor|].
  cbn [save_manifests]. destruct (nonblank m); [|apply IH].
  cbn [map ordinal]. constructor; [apply IH|].
  apply Forall_map.
  eapply Forall_impl; [|apply (save_manifests_ordinals_bounded (S i) rest)].
  cbn. intros f Hf. lia.
Qed.

(** X11: Ordinals grow strictly along the saved fragments: document order is
    kept. *)
Theorem saved_manifest_ordinals_increase (k8s_content : string) :
  StronglySorted lt (map ordinal (split_manifests k8s_content)).
Proof. apply save_manifests_sorted. Qed.

Lemma save_manifests_contents (i : nat) (manifests : list string) :
  Forall (fun f => content f <> EmptyString /\
                   PyStr.strip (content f) = content f)
         (save_manifests i manifests).
Proof.
  revert i; induction manifests as [|m rest IH]; intros i; [constructor|].
  cbn [save_manifests]. destruct (nonblank m) eqn:Hm; [|apply IH].
  constructor; [|apply IH]. cbn [content]. split.
  - unfold nonblank in Hm. apply negb_true_iff in Hm.
    intros Heq. rewrite Heq in Hm. discriminate Hm.
  - apply strip_idempotent.
Qed.

(** X12: What is saved is never blank: every fragment has a non-empty
    content without blanks at either end, and one of the five labels. *)
Theorem saved_manifests_well_formed (k8s_content : string) :
  Forall (fun f => content f <> EmptyString /\
                   PyStr.strip (content f) = content f /\
                   In (manifest_type f) manifest_labels)
         (split_manifests k8s_content).
Proof.
  unfold split_manifests.
  pose proof (save_manifests_contents 0 (PyStr.split k8s_content "---")) as Hc.
  pose proof (save_manifests_labels 0 (PyStr.split k8s_content "---")) as Hl.
  rewrite Forall_forall in *. intros f Hf.
  destruct (Hc f Hf) as [H1 H2]. repeat split; auto.
Qed.

(** X13: A bundle that opens with the document separator has a blank first
    piece, so no saved fragment carries the ordinal 0. *)
Theorem leading_separator_skips_ordinal_zero (rest : string) :
  Forall (fun f => 1 <= ordinal f) (split_manifests ("---" ++ rest)).
Proof.
  unfold split_manifests, PyStr.split. cbn [append PyStr.split_from].
  rewrite !prefix_cons, prefix_empty. cbn [String.length pred PyStr.split_from].
  destruct (ascii_dec "-" "-"); [|congruence].
  cbn [save_manifests]. change (nonblank "") with false. cbn iota.
  apply save_manifests_ordinals_bounded.
Qed.

End SavedManifests.

(* ================================================================== *)
(** ** More about the repository profile *)
(* ================================================================== *)

Section ProfileFacts.

Lemma get_flags (names : list string) (f : string) :
  PyDict.get (flags names) f = if PyStr.mem f names then Some true else None.
Proof.
  induction names as [|name names IH]; [reflexivity|].
  cbn [flags map PyDict.get PyStr.mem existsb].
  destruct (String.eqb f name); [reflexivity|]. exact IH.
Qed.

Lemma get_flags_true (names : list string) (f : string) :
  PyDict.get (flags names) f = Some true <-> In f names.
Proof.
  rewrite get_flags. rewrite <- mem_In.
  destruct (PyStr.mem f names); split; intros H; congruence.
Qed.

Lemma node_verdict_web (r : repository) :
  web (node_verdict r) = true ->
  exists summary,
    entry (node_verdict r) = Some summary /\
    node_is_web (node_dependencies summary) = true.
Proof.
  unfold node_verdict.
  destruct (has_file r "package.json"); [|discriminate].
  destruct (package_json r) as [|pkg_json]; [discriminate|].
  destruct (summarize_package pkg_json) as [|summary]; [discriminate|].
  cbn [web entry]. intros H. exists summary. split; [reflexivity | exact H].
Qed.

Lemma node_verdict_entry (r : repository) (summary : node_summary) :
  entry (node_verdict r) = Some summary ->
  web (node_verdict r) = node_is_web (node_dependencies summary).
Proof.
  unfold node_verdict.
  destruct (has_file r "package.json"); [|discriminate].
  destruct (package_json r) as [|pkg_json]; [discriminate|].
  destruct (summarize_package pkg_json) as [|s]; [discriminate|].
  cbn [web entry]. intros [= ->]. reflexivity.
Qed.

Lemma python_verdict_web (r : repository) :
  web (python_verdict r) = true ->
  exists reqs,
    entry (python_verdict r) = Some reqs /\ python_is_web reqs = true.
Proof.
  unfold python_verdict.
  destruct (has_file r "requirements.txt"); [|discriminate].
  destruct (requirements_txt r) as [|text]; [discriminate|].
  cbn [web entry]. intros H. exists (requirement_names text).
  split; [reflexivity | exact H].
Qed.

Lemma python_verdict_entry (r : repository) (reqs : list string) :
  entry (python_verdict r) = Some reqs ->
  web (python_verdict r) = python_is_web reqs.
Proof.
  unfold python_verdict.
  destruct (has_file r "requirements.txt"); [|discriminate].
  destruct (requirements_txt r) as [|text]; [discriminate|].
  cbn [web entry]. intros [= <-]. reflexivity.
Qed.

(** X14: [is_web_app] is set exactly when one of the two manifests was
    parsed and names a web framework of its allow-list. *)
Theorem web_app_iff_framework_listed (r : repository) (a : analysis)
  (w : list warning) :
  analyze_repository r = Return (a, w) ->
  is_web_app a = true <->
  (exists summary,
     dep_node (dependencies a) = Some summary /\
     node_is_web (node_dependencies summary) = true) \/
  (exists reqs,
     dep_python (dependencies a) = Some reqs /\ python_is_web reqs = true).
Proof.
  intros H. apply analyze_repository_returns in H. destruct H as [_ H].
  injection H as -> ->.
  cbn [derived_analysis is_web_app dependencies dep_node dep_python]. split.
  - intros Hweb. apply orb_true_iff in Hweb. destruct Hweb as [Hweb|Hweb].
    + left. apply node_verdict_web. exact Hweb.
    + right. apply python_verdict_web. exact Hweb.
  - intros [(summary & Hentry & Hweb)|(reqs & Hentry & Hweb)];
      apply orb_true_iff.
    + left. rewrite (node_verdict_entry r summary Hentry). exact Hweb.
    + right. rewrite (python_verdict_entry r reqs Hentry). exact Hweb.
Qed.

Lemma web_app_iff_framework_listed_witness :
  exists a w,
    analyze_repository express_repo = Return (a, w) /\ is_web_app a = true.
Proof.
  exists (derived_analysis express_repo), (derived_warnings express_repo).
  pose proof (analyze_repository_closed_form express_repo eq_refl) as Hrun.
  split; [exact Hrun|].
  apply (proj2 (web_app_iff_framework_listed express_repo _ _ Hrun)).
  left. eexists. split; reflexivity.
Defined.

Lemma derived_port_values (r : repository) :
  (derived_port r = 3000 \/ derived_port r = 5000 \/ derived_port r = 8000)%Z /\
  (web (python_verdict r) = false -> derived_port r = 3000%Z).
Proof.
  unfold derived_port, python_port.
  destruct (entry (python_verdict r)) as [reqs|]; [|tauto].
  destruct (web (python_verdict r)); [|tauto].
  destruct (PyStr.mem "fastapi" (map PyStr.lower reqs)); split;
    try tauto; discriminate.
Qed.

(** X15: [default_port] is always 3000, 5000 or 8000; it leaves 3000 only
    for a web application found through [requirements.txt]. *)
Theorem default_port_values (r : repository) (a : analysis)
  (w : list warning) :
  analyze_repository r = Return (a, w) ->
  (default_port a = 3000 \/ default_port a = 5000 \/ default_port a = 8000)%Z /\
  (default_port a <> 3000%Z ->
   is_web_app a = true /\
   exists reqs, dep_python (dependencies a) = Some reqs /\
                python_is_web reqs = true).
Proof.
  intros H. apply analyze_repository_returns in H. destruct H as [_ H].
  injection H as -> ->.
  cbn [derived_analysis is_web_app default_port dependencies dep_python].
  destruct (derived_port_values r) as [Hvalues Hdefault].
  split; [exact Hvalues|]. intros Hport.
  destruct (web (python_verdict r)) eqn:Hweb; [|tauto].
  split; [apply orb_true_r|]. apply python_verdict_web. exact Hweb.
Qed.

Lemma default_port_values_witness :
  exists a w,
    analyze_repository flask_repo = Return (a, w) /\ is_web_app a = true.
Proof.
  exists (derived_analysis flask_repo), (derived_warnings flask_repo).
  pose proof (analyze_repository_closed_form flask_repo eq_refl) as Hrun.
  split; [exact Hrun|].
  apply (proj2 (default_port_values flask_repo _ _ Hrun)). discriminate.
Defined.

(** X16: [entry_points] lists exactly the conventional entry files found at
    the root, each once, in the order main.py, app.py, server.js,
    index.js, and each of them is flagged in [structure]. *)
Theorem entry_points_are_present_entry_files (r : repository) (a : analysis)
  (w : list warning) :
  analyze_repository r = Return (a, w) ->
  entry_points a = filter (has_file r) entry_point_names /\
  NoDup (entry_points a) /\
  (forall f, In f (entry_points a) -> PyDict.get (structure a) f = Some true).
Proof.
  intros H. apply analyze_repository_returns in H. destruct H as [_ H].
  injection H as -> ->.
  cbn [derived_analysis entry_points structure].
  split; [reflexivity|]. split.
  - apply NoDup_filter.
    repeat (constructor; [cbn; intuition discriminate|]). constructor.
  - intros f Hin. apply get_flags_true.
    apply filter_In in Hin. destruct Hin as [Hname Hfile].
    apply filter_In. split; [|exact Hfile].
    cbn in Hname. cbn. tauto.
Qed.

Lemma entry_points_are_present_entry_files_witness :
  exists a w,
    analyze_repository fastapi_repo = Return (a, w) /\
    entry_points a = ["main.py"].
Proof.
  exists (derived_analysis fastapi_repo), (derived_warnings fastapi_repo).
  pose proof (analyze_repository_closed_form fastapi_repo eq_refl) as Hrun.
  split; [exact Hrun|].
  apply (proj1 (entry_points_are_present_entry_files fastapi_repo _ _ Hrun)).
Defined.

(** X17: [structure] and [package_managers] flag exactly the files of their
    table that are at the root, and there is one language tag per
    recorded package manager. *)
Theorem presence_flags_match_files (r : repository) (a : analysis)
  (w : list warning) :
  analyze_repository r = Return (a, w) ->
  (forall f, PyDict.get (structure a) f = Some true <->
             In f common_files /\ has_file r f = true) /\
  (forall f, PyDict.get (package_managers a) f = Some true <->
             In f (PyDict.keys package_files) /\ has_file r f = true) /\
  List.length (languages a) = List.length (package_managers a).
Proof.
  intros H. apply analyze_repository_returns in H. destruct H as [_ H].
  injection H as -> ->.
  cbn [derived_analysis structure package_managers languages].
  split; [|split].
  - intros f. rewrite get_flags_true. apply filter_In.
  - intros f. rewrite get_flags_true. unfold present_probes, PyDict.keys.
    rewrite !in_map_iff. split.
    + intros ([f' lang] & <- & Hin). apply filter_In in Hin.
      destruct Hin as [Hin Hfile]. split; [|exact Hfile].
      exists (f', lang). split; [reflexivity | exact Hin].
    + intros [([f' lang] & <- & Hin) Hfile]. exists (f', lang).
      split; [reflexivity|]. apply filter_In. split; assumption.
  - unfold flags. rewrite !length_map. reflexivity.
Qed.

Lemma presence_flags_match_files_witness :
  exists a w,
    analyze_repository go_and_rust_repo = Return (a, w) /\
    PyDict.get (structure a) "README.md" = Some true.
Proof.
  exists (derived_analysis go_and_rust_repo), (derived_warnings go_and_rust_repo).
  pose proof (analyze_repository_closed_form go_and_rust_repo eq_refl) as Hrun.
  split; [exact Hrun|].
  apply (proj1 (presence_flags_match_files go_and_rust_repo _ _ Hrun)).
  split; [|reflexivity]. do 3 right. left. reflexivity.
Defined.

(** X18: A warning is printed for a manifest exactly when that manifest is
    present and its [try] block raises. *)
Theorem warnings_iff_manifest_fails (r : repository) (a : analysis)
  (w : list warning) :
  analyze_repository r = Return (a, w) ->
  (In WarnPackageJson w <-> package_json_fails r) /\
  (In WarnRequirements w <-> requirements_fail r) /\
  NoDup w.
Proof.
  intros H. apply analyze_repository_returns in H. destruct H as [_ H].
  injection H as -> ->.
  unfold derived_warnings, node_verdict, python_verdict,
    package_json_fails, requirements_fail.
  destruct (has_file r "package.json");
    [destruct (package_json r) as [|pkg_json];
     [|destruct (summarize_package pkg_json) as [|summary]]|];
    (destruct (has_file r "requirements.txt");
     [destruct (requirements_txt r) as [|text]|]);
    cbn [raised failed_verdict no_verdict app In];
    (split; [|split]);
    try (split; intros; intuition (discriminate || congruence));
    repeat (constructor; [cbn; intuition discriminate|]); try constructor.
Qed.

Lemma warnings_iff_manifest_fails_witness :
  exists a w,
    analyze_repository broken_package_repo = Return (a, w) /\
    In WarnPackageJson w.
Proof.
  exists (derived_analysis broken_package_repo),
         (derived_warnings broken_package_repo).
  pose proof (analyze_repository_closed_form broken_package_repo eq_refl) as Hrun.
  split; [exact Hrun|].
  apply (proj2 (proj1 (warnings_iff_manifest_fails broken_package_repo _ _ Hrun))).
  split; [reflexivity | exact I].
Defined.

(** X19: An ecosystem has an entry in [dependencies] exactly when its
    manifest is present and was parsed; the entry is then what the
    manifest holds. *)
Theorem dependencies_iff_manifest_parsed (r : repository) (a : analysis)
  (w : list warning) :
  analyze_repository r = Return (a, w) ->
  (forall summary,
     dep_node (dependencies a) = Some summary <->
     has_file r "package.json" = true /\
     exists pkg_json, package_json r = Returned pkg_json /\
                      summarize_package pkg_json = Returned summary) /\
  (forall reqs,
     dep_python (dependencies a) = Some reqs <->
     has_file r "requirements.txt" = true /\
     exists text, requirements_txt r = Returned text /\
                  reqs = requirement_names text).
Proof.
  intros H. apply analyze_repository_returns in H. destruct H as [_ H].
  injection H as -> ->.
  cbn [derived_analysis dependencies dep_node dep_python].
  unfold node_verdict, python_verdict. split.
  - intros summary.
    destruct (has_file r "package.json");
      [destruct (package_json r) as [|pkg_json];
       [|destruct (summarize_package pkg_json) as [|s] eqn:Es]|];
      cbn [entry failed_verdict no_verdict]; split;
      try (intros H; discriminate H);
      try (intros [Hf _]; discriminate Hf);
      try (intros [_ (p & Hp & _)]; discriminate Hp).
    + intros [_ (p & [= <-] & Hs)]. congruence.
    + intros [= <-]. split; [reflexivity|]. exists pkg_json. split; [reflexivity | exact Es].
    + intros [_ (p & [= <-] & Hs)]. congruence.
  - intros reqs.
    destruct (has_file r "requirements.txt");
      [destruct (requirements_txt r) as [|text]|];
      cbn [entry failed_verdict no_verdict]; split;
      try (intros H; discriminate H);
      try (intros [Hf _]; discriminate Hf);
      try (intros [_ (p & Hp & _)]; discriminate Hp).
    + intros [= <-]. split; [reflexivity|]. exists text. split; reflexivity.
    + intros [_ (p & [= <-] & ->)]. reflexivity.
Qed.

Lemma dependencies_iff_manifest_parsed_witness :
  exists a w,
    analyze_repository flask_repo = Return (a, w) /\
    dep_python (dependencies a) = Some ["flask"].
Proof.
  exists (derived_analysis flask_repo), (derived_warnings flask_repo).
  pose proof (analyze_repository_closed_form flask_repo eq_refl) as Hrun.
  split; [exact Hrun|].
  apply (proj2 (proj2 (dependencies_iff_manifest_parsed flask_repo _ _ Hrun)
                      ["flask"])).
  split; [reflexivity|]. exists ("flask==2.0" ++ nl). split; reflexivity.
Defined.

(** X20: The [frameworks] list is created empty and nothing ever writes to
    it: it is empty in every profile. *)
Theorem frameworks_never_filled (r : repository) (a : analysis)
  (w : list warning) :
  analyze_repository r = Return (a, w) -> frameworks a = [].
Proof.
  intros H. apply analyze_repository_returns in H. destruct H as [_ H].
  injection H as -> ->. reflexivity.
Qed.

Lemma frameworks_never_filled_witness :
  exists a w,
    analyze_repository express_and_flask_repo = Return (a, w) /\
    frameworks a = [].
Proof.
  exists (derived_analysis express_and_flask_repo),
         (derived_warnings express_and_flask_repo).
  pose proof (analyze_repository_closed_form express_and_flask_repo eq_refl)
    as Hrun.
  split; [exact Hrun|].
  apply (frameworks_never_filled express_and_flask_repo _ _ Hrun).
Defined.

Lemma present_probes_head (r : repository) :
  has_file r "package.json" = true ->
  exists rest, present_probes r = ("package.json", "node") :: rest.
Proof.
  intros H. unfold present_probes, package_files. cbn [filter fst].
  rewrite H. eexists. reflexivity.
Qed.

Lemma probe_language_known (item : string * string) :
  In item package_files -> snd item <> "unknown".
Proof.
  cbn. intros H.
  repeat (destruct H as [<-|H]; [cbn; discriminate|]). contradiction.
Qed.

(** X21: The primary language put into both prompts is the tag of the first
    marker file of the probe table that is present: "node" whenever
    [package.json] is there, and "unknown" exactly when no marker file
    is. *)
Theorem primary_language_of_profile (r : repository) (a : analysis)
  (w : list warning) :
  analyze_repository r = Return (a, w) ->
  primary_language a = hd "unknown" (map snd (present_probes r)) /\
  (has_file r "package.json" = true -> primary_language a = "node") /\
  (primary_language a = "unknown" <->
   forall f, In f (PyDict.keys package_files) -> has_file r f = false).
Proof.
  intros H. apply analyze_repository_returns in H. destruct H as [_ H].
  injection H as -> ->.
  unfold primary_language. cbn [derived_analysis languages].
  split; [|split].
  - destruct (map snd (present_probes r)); reflexivity.
  - intros Hpkg. destruct (present_probes_head r Hpkg) as [rest ->]. reflexivity.
  - split.
    + intros Hunknown f Hf.
      destruct (present_probes r) as [|[f0 lang0] rest] eqn:E.
      * destruct (has_file r f) eqn:Hfile; [|reflexivity].
        apply in_map_iff in Hf. destruct Hf as ([f' lang] & <- & Hin).
        assert (In (f', lang) (present_probes r)) as Hin'
            by (apply filter_In; split; assumption).
        rewrite E in Hin'. contradiction.
      * cbn [map snd] in Hunknown. exfalso.
        apply (probe_language_known (f0, lang0)); [|exact Hunknown].
        assert (In (f0, lang0) (present_probes r)) as Hin
            by (rewrite E; left; reflexivity).
        apply filter_In in Hin. apply Hin.
    + intros Hnone.
      assert (present_probes r = []) as ->; [|reflexivity].
      unfold present_probes.
      destruct (filter (fun item => has_file r (fst item)) package_files)
        as [|[f lang] rest] eqn:E; [reflexivity|].
      assert (In (f, lang) (filter (fun item => has_file r (fst item)) package_files))
        as Hin by (rewrite E; left; reflexivity).
      apply filter_In in Hin. destruct Hin as [Hin Hfile]. cbn [fst] in Hfile.
      rewrite Hnone in Hfile; [discriminate Hfile|].
      change f with (fst (f, lang)). apply in_map. exact Hin.
Qed.

Lemma primary_language_of_profile_witness :
  exists a w,
    analyze_repository express_and_flask_repo = Return (a, w) /\
    primary_language a = "node".
Proof.
  exists (derived_analysis express_and_flask_repo),
         (derived_warnings express_and_flask_repo).
  pose proof (analyze_repository_closed_form express_and_flask_repo eq_refl)
    as Hrun.
  split; [exact Hrun|].
  apply (proj1 (proj2 (primary_language_of_profile express_and_flask_repo _ _ Hrun))).
  reflexivity.
Defined.

End ProfileFacts.

(* ================================================================== *)
(** ** Names read from requirements.txt *)
(* ================================================================== *)

Section RequirementNames.

Lemma split_head_prefix (sep s : string) :
  exists rest, s = hd EmptyString (PyStr.split s sep) ++ rest.
Proof.
  unfold PyStr.split. induction s as [|c s (rest & IH)].
  - exists EmptyString. reflexivity.
  - cbn [PyStr.split_from]. destruct (prefix sep (String c s)).
    + exists (String c s). reflexivity.
    + pose proof (split_nonempty sep 0 s) as Hne.
      destruct (PyStr.split_from sep 0 s) as [|p ps]; [congruence|].
      cbn [PyStr.push_char hd] in *. exists rest. cbn [append]. f_equal. exact IH.
Qed.

(** The piece before the first separator holds no separator. *)
Lemma split_head_clean (sep s : string) :
  prefix sep EmptyString = false ->
  PyStr.contains sep (hd EmptyString (PyStr.split s sep)) = false.
Proof.
  intros Hsep. induction s as [|c s IH].
  - unfold PyStr.split. cbn [PyStr.split_from hd]. rewrite contains_nil.
    exact Hsep.
  - destruct (split_head_prefix sep s) as [rest Hrest].
    unfold PyStr.split in *. cbn [PyStr.split_from].
    destruct (prefix sep (String c s)) eqn:E.
    + cbn [hd]. rewrite contains_nil. exact Hsep.
    + pose proof (split_nonempty sep 0 s) as Hne.
      destruct (PyStr.split_from sep 0 s) as [|p ps]; [congruence|].
      cbn [PyStr.push_char hd] in *. cbn [PyStr.contains].
      rewrite IH, orb_false_r.
      destruct (prefix sep (String c p)) eqn:Ep; [|reflexivity].
      apply (prefix_app_l sep (String c p) rest) in Ep.
      cbn [append] in Ep. rewrite <- Hrest in Ep. congruence.
Qed.

Lemma strip_head (s : string) :
  PyStr.strip s = EmptyString \/
  exists c t, PyStr.strip s = String c t /\ PyStr.is_space c = false.
Proof.
  unfold PyStr.strip.
  destruct (lstrip_head s) as [->|(c & t & -> & Hc)]; [left; reflexivity|].
  destruct (rstrip_keeps_head c t Hc) as [t' ->].
  right. exists c, t'. split; [reflexivity | exact Hc].
Qed.

(** X22: No name read from [requirements.txt] holds the pin separator "==",
    and none starts with a blank. *)
Theorem requirement_names_unpinned (text : string) :
  Forall (fun name => PyStr.contains "==" name = false /\
                      PyStr.lstrip name = name)
         (requirement_names text).
Proof.
  unfold requirement_names. apply Forall_forall. intros name Hin.
  apply in_map_iff in Hin. destruct Hin as (line & <- & _). split.
  - apply split_head_clean. reflexivity.
  - destruct (split_head_prefix "==" (PyStr.strip line)) as [rest Hrest].
    destruct (hd EmptyString (PyStr.split (PyStr.strip line) "==")) as [|d n];
      [reflexivity|].
    destruct (strip_head line) as [Hs|(c & t & Hs & Hc)]; rewrite Hs in Hrest.
    + discriminate Hrest.
    + cbn [append] in Hrest. injection Hrest as <- _.
      cbn [PyStr.lstrip]. rewrite Hc. reflexivity.
Qed.

End RequirementNames.

(* ================================================================== *)
(** ** The application name of the orchestration prompt *)
(* ================================================================== *)

Section AppName.

Lemma contains_char_cons (x c : ascii) (s : string) :
  PyStr.contains (String x EmptyString) (String c s)
  = (if ascii_dec x c then true else false)
    || PyStr.contains (String x EmptyString) s.
Proof.
  cbn [PyStr.contains]. rewrite prefix_cons, prefix_empty. reflexivity.
Qed.

Lemma replace_char_cons (a b c : ascii) (s : string) :
  PyStr.replace (String c s) (String a EmptyString) (String b EmptyString)
  = String (if ascii_dec a c then b else c)
           (PyStr.replace s (String a EmptyString) (String b EmptyString)).
Proof.
  unfold PyStr.replace. cbn [PyStr.replace_from].
  rewrite prefix_cons, prefix_empty.
  destruct (ascii_dec a c); reflexivity.
Qed.

Lemma replace_char_removes (a b : ascii) (s : string) :
  a <> b ->
  PyStr.contains (String a EmptyString)
    (PyStr.replace s (String a EmptyString) (String b EmptyString)) = false.
Proof.
  intros Hab. induction s as [|c s IH]; [reflexivity|].
  rewrite replace_char_cons, contains_char_cons, IH, orb_false_r.
  destruct (ascii_dec a c) as [<-|Hac].
  - destruct (ascii_dec a b); [congruence | reflexivity].
  - destruct (ascii_dec a c); [congruence | reflexivity].
Qed.

Lemma replace_char_keeps_absent (x a b : ascii) (s : string) :
  x <> b ->
  PyStr.contains (String x EmptyString) s = false ->
  PyStr.contains (String x EmptyString)
    (PyStr.replace s (String a EmptyString) (String b EmptyString)) = false.
Proof.
  intros Hxb. induction s as [|c s IH]; intros H; [reflexivity|].
  rewrite contains_char_cons in H. apply orb_false_iff in H. destruct H as [Hc Hs].
  rewrite replace_char_cons, contains_char_cons, (IH Hs), orb_false_r.
  destruct (ascii_dec a c).
  - destruct (ascii_dec x b); [congruence | reflexivity].
  - exact Hc.
Qed.

Lemma lower_char_idempotent (c : ascii) :
  PyStr.lower_char (PyStr.lower_char c) = PyStr.lower_char c.
Proof.
  destruct c as [b0 b1 b2 b3 b4 b5 b6 b7].
  destruct b0, b1, b2, b3, b4, b5, b6, b7; reflexivity.
Qed.

Lemma lower_char_underscore (c : ascii) :
  PyStr.lower_char c = "_"%char -> c = "_"%char.
Proof.
  destruct c as [b0 b1 b2 b3 b4 b5 b6 b7].
  destruct b0, b1, b2, b3, b4, b5, b6, b7; intros H;
    try reflexivity; vm_compute in H; discriminate H.
Qed.

Lemma lower_char_space (c : ascii) :
  PyStr.lower_char c = " "%char -> c = " "%char.
Proof.
  destruct c as [b0 b1 b2 b3 b4 b5 b6 b7].
  destruct b0, b1, b2, b3, b4, b5, b6, b7; intros H;
    try reflexivity; vm_compute in H; discriminate H.
Qed.

Lemma lower_idempotent (s : string) :
  PyStr.lower (PyStr.lower s) = PyStr.lower s.
Proof.
  induction s as [|c s IH]; [reflexivity|].
  cbn [PyStr.lower]. rewrite lower_char_idempotent, IH. reflexivity.
Qed.

Lemma lower_keeps_absent (x : ascii) (s : string) :
  (forall c, PyStr.lower_char c = x -> c = x) ->
  PyStr.contains (String x EmptyString) s = false ->
  PyStr.contains (String x EmptyString) (PyStr.lower s) = false.
Proof.
  intros Hx. induction s as [|c s IH]; intros H; [reflexivity|].
  rewrite contains_char_cons in H. apply orb_false_iff in H. destruct H as [Hc Hs].
  cbn [PyStr.lower]. rewrite contains_char_cons, (IH Hs), orb_false_r.
  destruct (ascii_dec x (PyStr.lower_char c)) as [Heq|]; [|reflexivity].
  symmetry in Heq. apply Hx in Heq. subst c.
  destruct (ascii_dec x x); [discriminate Hc | congruence].
Qed.

Lemma normalized_name (name : string) :
  let result :=
    PyStr.lower (PyStr.replace (PyStr.replace name "_" "-") " " "-") in
  PyStr.contains "_" result = false /\
  PyStr.contains " " result = false /\
  PyStr.lower result = result.
Proof.
  cbv zeta. split; [|split].
  - apply lower_keeps_absent; [apply lower_char_underscore|].
    apply replace_char_keeps_absent; [discriminate|].
    apply replace_char_removes. discriminate.
  - apply lower_keeps_absent; [apply lower_char_space|].
    apply replace_char_removes. discriminate.
  - apply lower_idempotent.
Qed.

Variable number_truthy : string -> bool.

(** X23: Whenever the orchestration prompt gets an application name, the
    name holds no underscore and no space and is in lower case. *)
Theorem k8s_app_name_normalized (a : analysis) (name : string) :
  k8s_app_name number_truthy a = Returned name ->
  PyStr.contains "_" name = false /\
  PyStr.contains " " name = false /\
  PyStr.lower name = name.
Proof.
  unfold k8s_app_name.
  destruct (dep_node (dependencies a)) as [summary|];
    [|intros [= <-]; repeat split].
  destruct (truthy number_truthy (node_name summary));
    [|intros [= <-]; repeat split].
  destruct (node_name summary) as [| | |s| |]; try discriminate.
  intros [= <-]. apply normalized_name.
Qed.

(** X24: The prompt falls back to "myapp" only when there is no parsed
    [package.json]; a parsed one without a [name] member gives
    "unknown", the default [analyze_repository] filled in. *)
Theorem k8s_app_name_of_profile (r : repository) (a : analysis)
  (w : list warning) :
  analyze_repository r = Return (a, w) ->
  (has_file r "package.json" = false \/ package_json_fails r ->
   k8s_app_name number_truthy a = Returned "myapp") /\
  (forall members summary,
     has_file r "package.json" = true ->
     package_json r = Returned (JObject members) ->
     summarize_package (JObject members) = Returned summary ->
     PyDict.get members "name" = None ->
     k8s_app_name number_truthy a = Returned "unknown").
Proof.
  intros H. apply analyze_repository_returns in H. destruct H as [_ H].
  injection H as -> ->.
  unfold k8s_app_name. cbn [derived_analysis dependencies dep_node]. split.
  - intros [Habsent|Hfails].
    + unfold node_verdict. rewrite Habsent. reflexivity.
    + rewrite (package_json_fails_verdict r Hfails). reflexivity.
  - intros members summary Hfile Hpkg Hsum Hname.
    unfold node_verdict. rewrite Hfile, Hpkg, Hsum. cbn [entry].
    unfold summarize_package in Hsum.
    destruct (PyDict.get_default members "dependencies" (JObject []));
      try discriminate Hsum.
    injection Hsum as <-. cbn [node_name].
    unfold PyDict.get_default. rewrite Hname. reflexivity.
Qed.

(** X25: [generate_k8s_manifests] raises, whatever the backend answers,
    exactly when the name taken from [package.json] is truthy and not a
    string; in every other case it returns. *)
Theorem generate_k8s_raises_iff (a : analysis) (post : outcome http_response) :
  generate_k8s_manifests number_truthy a post = Raised <->
  exists summary,
    dep_node (dependencies a) = Some summary /\
    truthy number_truthy (node_name summary) = true /\
    forall s, node_name summary <> JString s.
Proof.
  unfold generate_k8s_manifests, k8s_app_name. split.
  - destruct (dep_node (dependencies a)) as [summary|]; [|discriminate].
    destruct (truthy number_truthy (node_name summary)) eqn:Ht; [|discriminate].
    destruct (node_name summary) as [| | |s| |] eqn:En; try discriminate;
      intros _; exists summary; rewrite En; repeat split;
        try exact Ht; intros s'; discriminate.
  - intros (summary & -> & -> & Hnot).
    destruct (node_name summary) as [| | |s| |]; try reflexivity.
    exfalso. apply (Hnot s). reflexivity.
Qed.

End AppName.

Section AppNameWitnesses.

Lemma k8s_app_name_normalized_witness :
  PyStr.contains "_" "shop" = false /\
  PyStr.contains " " "shop" = false /\
  PyStr.lower "shop" = "shop".
Proof.
  apply (k8s_app_name_normalized (fun _ => true) (derived_analysis express_repo)).
  reflexivity.
Defined.

Lemma k8s_app_name_of_profile_witness :
  exists a w,
    analyze_repository nameless_repo = Return (a, w) /\
    k8s_app_name (fun _ => true) a = Returned "unknown".
Proof.
  exists (derived_analysis nameless_repo), (derived_warnings nameless_repo).
  pose proof (analyze_repository_closed_form nameless_repo eq_refl) as Hrun.
  split; [exact Hrun|].
  eapply (proj2 (k8s_app_name_of_profile (fun _ => true) nameless_repo _ _ Hrun));
    reflexivity.
Defined.

End AppNameWitnesses.

Section RaisingPrompt.

Lemma generate_k8s_raises_iff_witness :
  generate_k8s_manifests (fun _ => true) (derived_analysis boolean_name_repo)
    Raised = Raised.
Proof.
  apply (proj2 (generate_k8s_raises_iff (fun _ => true)
                  (derived_analysis boolean_name_repo) Raised)).
  eexists. split; [reflexivity|]. split; [reflexivity|].
  intros s. discriminate.
Defined.

End RaisingPrompt.

(* ================================================================== *)
(** ** What the generation calls return *)
(* ================================================================== *)

Section Generation.

Lemma generate_with_some (clean : string -> string)
  (post : outcome http_response) (text : string) :
  generate_with clean post = Some text ->
  exists response raw,
    post = Returned response /\
    status_code response = 200%Z /\
    text = clean raw.
Proof.
  unfold generate_with. destruct post as [|response]; [discriminate|].
  destruct (status_code response =? 200)%Z eqn:Hs; [|discriminate].
  destruct (json_body response) as [|result]; [discriminate|].
  destruct (response_text result) as [|raw]; [discriminate|].
  intros [= <-]. exists response, raw.
  split; [reflexivity|]. split; [apply Z.eqb_eq; exact Hs | reflexivity].
Qed.

(** X26: A Dockerfile is returned only for an answer with status 200, and
    what is returned holds no code fence and is left unchanged by
    another pass of the clean-up. *)
Theorem generate_dockerfile_result (post : outcome http_response)
  (text : string) :
  generate_dockerfile post = Some text ->
  (exists response, post = Returned response /\ status_code response = 200%Z) /\
  fence_free text /\
  _clean_dockerfile_response text = text /\
  (text = EmptyString \/ Forall tidy_line (PyStr.split text nl)).
Proof.
  intros H. apply generate_with_some in H.
  destruct H as (response & raw & Hpost & Hstatus & ->).
  split; [exists response; split; assumption|].
  split; [apply dockerfile_result_fence_free|].
  split; [apply dockerfile_result_fixed | apply dockerfile_result_lines].
Qed.

Lemma generate_dockerfile_result_witness :
  fence_free "FROM alpine" /\
  _clean_dockerfile_response "FROM alpine" = "FROM alpine".
Proof.
  destruct (generate_dockerfile_result (generate_reply spec_dockerfile_reply)
              "FROM alpine" eq_refl) as (_ & Hfree & Hfixed & _).
  split; assumption.
Defined.

(** X27: Manifests are returned only for an answer with status 200; what is
    returned holds no code fence, is empty or begins with a line that
    starts the YAML, and is left unchanged by another pass. *)
Theorem generate_k8s_result (number_truthy : string -> bool) (a : analysis)
  (post : outcome http_response) (text : string) :
  generate_k8s_manifests number_truthy a post = Returned (Some text) ->
  (exists response, post = Returned response /\ status_code response = 200%Z) /\
  fence_free text /\
  _clean_k8s_response text = text /\
  (text = EmptyString \/ starts_yaml (first_line text) = true).
Proof.
  unfold generate_k8s_manifests.
  destruct (k8s_app_name number_truthy a); [discriminate|].
  intros [= H]. apply generate_with_some in H.
  destruct H as (response & raw & Hpost & Hstatus & ->).
  split; [exists response; split; assumption|].
  split; [apply k8s_result_fence_free|].
  split; [apply k8s_result_fixed | apply k8s_result_first_line].
Qed.

Lemma generate_k8s_result_witness :
  fence_free "apiVersion: v1" /\
  _clean_k8s_response "apiVersion: v1" = "apiVersion: v1".
Proof.
  destruct (generate_k8s_result (fun _ => true) initial_analysis
              (generate_reply ("Sure!" ++ nl ++ "apiVersion: v1"))
              "apiVersion: v1" eq_refl) as (_ & Hfree & Hfixed & _).
  split; assumption.
Defined.

End Generation.

(* ================================================================== *)
(** ** check_ollama_connection *)
(* ================================================================== *)

Section OllamaCheck.

Lemma model_names_of_named (items : list json) (names : list json) :
  model_names_of items = Returned names -> Forall named_model items.
Proof.
  revert names; induction items as [|model items IH]; intros names H;
    [constructor|].
  cbn [model_names_of] in H.
  destruct (model_name_of model) as [|name] eqn:Em; [discriminate H|].
  destruct (model_names_of items) as [|rest] eqn:Er; [discriminate H|].
  constructor; [|apply (IH rest); reflexivity].
  unfold model_name_of in Em. destruct model; try discriminate Em.
  destruct (PyDict.get members "name") as [n|] eqn:Eg; [|discriminate Em].
  exists members, n. split; [reflexivity | exact Eg].
Qed.

Lemma model_names_of_source (items : list json) (names : list json)
  (name : json) :
  model_names_of items = Returned names -> In name names ->
  exists members,
    In (JObject members) items /\ PyDict.get members "name" = Some name.
Proof.
  revert names; induction items as [|model items IH]; intros names H Hin.
  - injection H as <-. contradiction.
  - cbn [model_names_of] in H.
    destruct (model_name_of model) as [|n] eqn:Em; [discriminate H|].
    destruct (model_names_of items) as [|rest] eqn:Er; [discriminate H|].
    injection H as <-. destruct Hin as [->|Hin].
    + unfold model_name_of in Em. destruct model; try discriminate Em.
      destruct (PyDict.get members "name") as [n'|] eqn:Eg; [|discriminate Em].
      injection Em as ->. exists members. split; [left; reflexivity | exact Eg].
    + destruct (IH rest eq_refl Hin) as (members & Hm & Hg).
      exists members. split; [right; exact Hm | exact Hg].
Qed.

Lemma model_names_of_complete (items : list json) :
  Forall named_model items ->
  exists names,
    model_names_of items = Returned names /\
    forall members name,
      In (JObject members) items -> PyDict.get members "name" = Some name ->
      In name names.
Proof.
  induction 1 as [|model items (ms & n & -> & Hn) _ (names & Hnames & Hall)].
  - exists []. split; [reflexivity|]. intros ? ? [].
  - exists (n :: names). split.
    + cbn [model_names_of model_name_of]. rewrite Hn, Hnames. reflexivity.
    + intros members name [Heq|Hin] Hget.
      * injection Heq as <-. left. congruence.
      * right. apply (Hall members name Hin Hget).
Qed.

(** X28: The check succeeds exactly when the answer has status 200, its body
    is a dictionary whose [models] is a list in which every entry is a
    dictionary with a [name], and one of these names is the configured
    model; a single entry without a name makes it fail even if the
    model is listed. *)
Theorem check_ollama_connection_iff (model_name : string)
  (tags : outcome http_response) :
  check_ollama_connection model_name tags = true <->
  exists response members items,
    tags = Returned response /\
    status_code response = 200%Z /\
    json_body response = Returned (JObject members) /\
    PyDict.get_default members "models" (JArray []) = JArray items /\
    Forall named_model items /\
    exists entry,
      In (JObject entry) items /\
      PyDict.get entry "name" = Some (JString model_name).
Proof.
  unfold check_ollama_connection. split.
  - destruct tags as [|response]; [discriminate|].
    destruct (status_code response =? 200)%Z eqn:Hs; [|discriminate].
    destruct (json_body response) as [|[| | | | |members]] eqn:Hb;
      try discriminate.
    destruct (PyDict.get_default members "models" (JArray []))
      as [| | |s|items|ms] eqn:Hm; cbn [model_names]; try discriminate.
    + destruct s; discriminate.
    + destruct (model_names_of items) as [|names] eqn:Hn; [discriminate|].
      intros Hex. apply existsb_exists in Hex.
      destruct Hex as (name & Hin & Hname).
      destruct name as [| | |s| |]; try discriminate Hname.
      cbn [is_model] in Hname. apply String.eqb_eq in Hname. subst s.
      exists response, members, items.
      repeat split; try assumption; try reflexivity.
      * apply Z.eqb_eq. exact Hs.
      * apply (model_names_of_named items names Hn).
      * apply (model_names_of_source items names _ Hn Hin).
    + destruct ms; discriminate.
  - intros (response & members & items & -> & Hs & Hb & Hm & Hall
            & entry & Hin & Hget).
    rewrite Hs, Hb, Hm. cbn [Z.eqb Pos.eqb model_names].
    destruct (model_names_of_complete items Hall) as (names & -> & Hnames).
    apply existsb_exists. exists (JString model_name).
    split; [apply (Hnames entry _ Hin Hget)|].
    cbn [is_model]. apply String.eqb_refl.
Qed.

Lemma check_ollama_connection_iff_witness :
  check_ollama_connection "codellama:13b-instruct"
    (tags_reply (JArray [JObject [("name", JString "llama3")];
                         JObject [("name", JString "codellama:13b-instruct")]]))
  = true.
Proof.
  apply (proj2 (check_ollama_connection_iff _ _)).
  eexists. eexists. eexists.
  split; [reflexivity|]. split; [reflexivity|]. split; [reflexivity|].
  split; [reflexivity|]. split.
  - repeat constructor; eexists; eexists; split; reflexivity.
  - exists [("name", JString "codellama:13b-instruct")].
    split; [right; left; reflexivity | reflexivity].
Defined.

End OllamaCheck.

(* ================================================================== *)
(** ** The preview *)
(* ================================================================== *)

Section Preview.

Lemma substring_length (n : nat) (s : string) :
  String.length (substring 0 n s) = Nat.min n (String.length s).
Proof.
  revert s; induction n as [|n IH]; intros s.
  - destruct s; reflexivity.
  - destruct s as [|c s]; [reflexivity|].
    cbn [substring String.length Nat.min]. rewrite IH. reflexivity.
Qed.

(** X29: The preview is never longer than 503 characters: a content of at
    most 500 characters is shown as it is, a longer one is cut to 503. *)
Theorem preview_bounded (content : string) :
  String.length (preview content) <= 503 /\
  (String.length content <= 500 -> preview content = content) /\
  (500 < String.length content -> String.length (preview content) = 503).
Proof.
  unfold preview.
  destruct (500 <? String.length content)%nat eqn:E.
  - apply Nat.ltb_lt in E.
    assert (String.length (substring 0 500 content ++ "...") = 503) as Hlen.
    { rewrite string_length_app, substring_length.
      rewrite Nat.min_l by lia. reflexivity. }
    rewrite Hlen. split; [lia|]. split; [lia | reflexivity].
  - apply Nat.ltb_ge in E. split; [lia|]. split; [reflexivity | lia].
Qed.

Lemma preview_bounded_witness : preview "FROM alpine" = "FROM alpine".
Proof.
  apply (proj1 (proj2 (preview_bounded "FROM alpine"))).
  cbn [String.length]. lia.
Defined.

End Preview.
